(** * TourGenious backend: the request orchestrators of [src/backend/server.js]

    A shallow embedding of the Express handlers of the backend and of the
    helpers they use, followed by the properties of the orchestrators:
    the chatbot rate limiter, the provider cooldown, the offline fallbacks of
    the translator and of the chatbot, and place discovery.

    Conventions of the embedding.
    - A JavaScript string is a [string] holding its UTF-8 bytes.
    - A request-body field that may be absent is an [option]; the fields
      have the types of the documented request shapes (text fields are
      strings, coordinates and radius are numbers).
    - A JavaScript number that counts or holds milliseconds is a [Z]; a
      coordinate or a distance is a [Q] (every finite double is a rational).
    - A networked call is replaced by its outcome, read from an environment
      record; every handler also returns the list of providers it contacted.
    - Module-level mutable state ([chatbotRateLimitStore],
      [chatbotProviderCooldownUntil]) is passed explicitly. *)

From Stdlib Require Import ZArith QArith Qround String Ascii List Sorted Lia Lqa.
From stdpp Require Import gmap strings list pretty.

Open Scope string_scope.

(** ** JavaScript values and string primitives used by the handlers *)

Module JS.

(** Truthiness of a string ([!s] is true for the empty string). *)
Definition truthy_str (s : string) : bool :=
  match s with EmptyString => false | String _ _ => true end.

(** Truthiness of a possibly absent string field. *)
Definition truthy (o : option string) : bool :=
  match o with Some s => truthy_str s | None => false end.

(** Truthiness of a number: [0] is falsy. *)
Definition truthy_num (q : Q) : bool := negb (Qeq_bool q 0).

Definition truthy_onum (o : option Q) : bool :=
  match o with Some q => truthy_num q | None => false end.

(** [a || b] on possibly absent strings. *)
Definition or_else (a b : option string) : option string :=
  if truthy a then a else b.

(** [a || d] with a string literal on the right. *)
Definition or_default (a : option string) (d : string) : string :=
  match a with
  | Some s => if truthy_str s then s else d
  | None => d
  end.

(** [String.prototype.toLowerCase] on the ASCII letters; the bytes of
    other characters are kept. *)
Definition lower_ascii (c : ascii) : ascii :=
  let n := nat_of_ascii c in
  if ((65 <=? n) && (n <=? 90))%nat then ascii_of_nat (n + 32) else c.

Fixpoint toLowerCase (s : string) : string :=
  match s with
  | EmptyString => EmptyString
  | String c r => String (lower_ascii c) (toLowerCase r)
  end.

(** [s.includes(sub)]. *)
Fixpoint includes (s sub : string) : bool :=
  String.prefix sub s ||
  match s with
  | EmptyString => false
  | String _ r => includes r sub
  end.

(** The ASCII members of the class [\s]: tab, line feed, vertical tab,
    form feed, carriage return and space. *)
Definition is_space (c : ascii) : bool :=
  let n := nat_of_ascii c in
  (((9 <=? n) && (n <=? 13)) || (n =? 32))%nat.

Fixpoint trimStart (s : string) : string :=
  match s with
  | EmptyString => EmptyString
  | String c r => if is_space c then trimStart r else s
  end.

Fixpoint rev_string (s acc : string) : string :=
  match s with
  | EmptyString => acc
  | String c r => rev_string r (String c acc)
  end.

(** [s.trim()]. *)
Definition trim (s : string) : string :=
  rev_string (trimStart (rev_string (trimStart s) "")) "".

(** [s.split(/\s+/)]: [cur] is the word being read, [in_ws] tells that the
    previous character belonged to a separator. A leading or a trailing
    separator yields an empty first or last word, as in JavaScript. *)
Fixpoint split_ws_from (s cur : string) (in_ws : bool) : list string :=
  match s with
  | EmptyString => [cur]
  | String c r =>
      if is_space c then
        if in_ws then split_ws_from r cur true
        else cur :: split_ws_from r "" true
      else split_ws_from r (cur ++ String c "") false
  end.

Definition split_ws (s : string) : list string := split_ws_from s "" false.

(** An object literal whose values are strings: its own properties in
    insertion order. *)
Definition obj : Type := list (string * string).

Fixpoint own_get {A : Type} (k : string) (o : list (string * A)) : option A :=
  match o with
  | [] => None
  | (k', v) :: r => if String.eqb k k' then Some v else own_get k r
  end.

(** Writing a property: an existing key keeps its position and takes the
    new value, a new key goes last. *)
Fixpoint obj_set (k v : string) (o : obj) : obj :=
  match o with
  | [] => [(k, v)]
  | (k', v') :: r =>
      if String.eqb k k' then (k', v) :: r else (k', v') :: obj_set k v r
  end.

(** The object denoted by a literal [{k1: v1, k2: v2, ...}], in which a
    key may be written more than once. *)
Definition obj_of_literal (l : list (string * string)) : obj :=
  fold_left (fun o kv => obj_set (fst kv) (snd kv) o) l [].

(** [Object.keys(o)]. *)
Definition keys (o : obj) : list string := map fst o.

(** [Array.prototype.find]. *)
Definition find_key (p : string -> bool) (ks : list string) : option string :=
  List.find p ks.

(** The names every object literal inherits from [Object.prototype]. *)
Definition Object_prototype_names : list string :=
  [ "constructor"; "hasOwnProperty"; "isPrototypeOf";
    "propertyIsEnumerable"; "toLocaleString"; "toString"; "valueOf";
    "__defineGetter__"; "__defineSetter__"; "__lookupGetter__";
    "__lookupSetter__"; "__proto__" ].

Definition inherited (k : string) : bool :=
  existsb (String.eqb k) Object_prototype_names.

(** The result of the property read [o[k]]: the own value, else the
    inherited member (a function, or the prototype object for
    [__proto__]), else [undefined]. *)
Inductive value :=
| VStr (s : string)
| VInherited (name : string)
| VUndefined.

Definition get (o : obj) (k : string) : value :=
  match own_get k o with
  | Some v => VStr v
  | None => if inherited k then VInherited k else VUndefined
  end.

Definition truthy_value (v : value) : bool :=
  match v with
  | VStr s => truthy_str s
  | VInherited _ => true
  | VUndefined => false
  end.

(** The string an array element contributes to [join]. *)
Definition render (v : value) : string :=
  match v with
  | VStr s => s
  | VInherited name =>
      if String.eqb name "__proto__" then "[object Object]"
      else "function "
             ++ (if String.eqb name "constructor" then "Object" else name)
             ++ "() { [native code] }"
  | VUndefined => ""
  end.

(** [arr.join(' ')]. *)
Definition join (l : list string) : string := String.concat " " l.

End JS.

(** ** The chatbot rate limiter (lines 80-111) *)

Module RateLimiter.

Open Scope Z_scope.

(** A value of [chatbotRateLimitStore]. *)
Record entry := Entry { count : Z; resetAt : Z }.

Definition CHATBOT_WINDOW_MS : Z := 60 * 1000.
Definition CHATBOT_MAX_REQUESTS : Z := 50.

(** What the limiter reads of a request. *)
Record origin := Origin {
  ip : option string;
  x_forwarded_for : option string
}.

(** [req.ip || req.headers['x-forwarded-for'] || 'unknown'] *)
Definition client_key (r : origin) : string :=
  JS.or_default (JS.or_else (ip r) (x_forwarded_for r)) "unknown".

(** The body sent with status 429. *)
Record throttled := Throttled {
  th_status : Z;
  th_error : string;
  th_rateLimited : bool;
  th_retryAfterMs : Z;
  th_windowMs : Z
}.

Inductive verdict :=
| Next
| Rejected (body : throttled).

(** The entry the limiter works on: the stored one, or a new one when
    there is none or its window is over. *)
Definition current_entry (now : Z) (stored : option entry) : entry :=
  match stored with
  | Some e => if now >? resetAt e then Entry 0 (now + CHATBOT_WINDOW_MS) else e
  | None => Entry 0 (now + CHATBOT_WINDOW_MS)
  end.

(** Whether the limiter writes the new entry to the store. *)
Definition renews (now : Z) (stored : option entry) : bool :=
  match stored with
  | Some e => now >? resetAt e
  | None => true
  end.

Definition chatbotRateLimiter (now : Z) (req : origin)
    (store : gmap string entry) : gmap string entry * verdict :=
  let key := client_key req in
  let e := current_entry now (store !! key) in
  let store1 := if renews now (store !! key) then <[key := e]> store else store in
  if count e >=? CHATBOT_MAX_REQUESTS then
    let retryAfterMs := Z.max (resetAt e - now) 0 in
    (store1,
     Rejected (Throttled 429
                 "Too many requests to chatbot. Please try again shortly."
                 true retryAfterMs CHATBOT_WINDOW_MS))
  else
    (<[key := Entry (count e + 1) (resetAt e)]> store1, Next).

(** A sequence of calls of the limiter, each with its clock reading. *)
Fixpoint run (store : gmap string entry) (calls : list (Z * origin))
    : gmap string entry * list verdict :=
  match calls with
  | [] => (store, [])
  | (now, req) :: rest =>
      let '(store1, v) := chatbotRateLimiter now req store in
      let '(store2, vs) := run store1 rest in
      (store2, v :: vs)
  end.

(** The calls of a sequence that come from the client [key]. *)
Definition from_key (key : string) (c : Z * origin) : bool :=
  String.eqb (client_key (snd c)) key.

(** The number of calls made in the name of [key]. *)
Definition calls_of (key : string) (calls : list (Z * origin)) : Z :=
  Z.of_nat (length (List.filter (from_key key) calls)).

(** Every stored count lies between 0 and the quota. *)
Definition bounded (store : gmap string entry) : Prop :=
  forall k e, store !! k = Some e -> 0 <= count e <= CHATBOT_MAX_REQUESTS.

End RateLimiter.

(** ** Shared shapes: error bodies and provider outcomes *)

Module Http.

(** The body of an error response, with its status code. Fields a
    response does not carry are [None]. *)
Record error_body := ErrorBody {
  status : Z;
  error : string;
  message : option string;
  details : option string
}.

End Http.

Module Provider.

(** What a handler reads of a rejected call: [error.message] and
    [error.response?.status]. *)
Record failure := Failure {
  message : string;
  status : option Z
}.

(** The outcome of one networked call: it throws, or it returns and the
    field the handler reads from the reply is absent or holds a string. *)
Inductive outcome :=
| Threw (e : failure)
| Returned (field : option string).

(** A call fails when it throws or when the field it should carry is
    absent or empty. *)
Definition failed (o : outcome) : bool :=
  match o with
  | Threw _ => true
  | Returned f => negb (JS.truthy f)
  end.

(** [error?.response?.status] of the error a handler caught. *)
Definition status_is (s : option Z) (n : Z) : bool :=
  match s with Some z => Z.eqb z n | None => false end.

Definition status_ge (s : option Z) (n : Z) : bool :=
  match s with Some z => Z.leb n z | None => false end.

End Provider.

(** ** The offline chatbot responder (lines 29-57) *)

Module Offline.

Import JS.

Definition BEACH_TEXT : string :=
  "Top Goa beaches: Baga (nightlife), Calangute (water sports), Anjuna (sunsets), Palolem (peaceful). Go early for parking and bring cash for shacks.".

Definition STAY_TEXT : string :=
  "For stays: North Goa = nightlife (Baga/Calangute), Candolim/Sinquerim = quieter, Anjuna/Vagator = cafes. South Goa = peaceful (Palolem/Agonda/Colva). Book via TourGenious lodging to see verified listings.".

Definition WEATHER_TEXT : string :=
  "Goa weather: Oct-Feb pleasant (22-32°C), Mar-May hot (30-36°C), Jun-Sep monsoon. Keep a light rain jacket in monsoon and book refundable stays.".

Definition FOOD_TEXT : string :=
  "Try Goan dishes: Fish thali, Cafreal, Xacuti, Vindaloo, Bebinca dessert. Ask shacks for today’s fresh catch; avoid plastic waste on beaches.".

Definition TRANSPORT_TEXT : string :=
  "Getting around: Scooters are fastest for short hops; carry license and helmet. For airport → hotel, pre-book a taxi. Avoid late-night isolated rides; share live location.".

Definition EMERGENCY_TEXT : string :=
  "Emergency: Dial 112 for police/medical. Keep a copy of your ID. In TourGenious, open Smart Assist → Emergency for quick contacts and location sharing.".

Definition GENERIC_TEXT : string :=
  "I am your Goa Tourism assistant. Ask me about beaches, stays, food, transport, weather, or how to use TourGenious features (booking, translator, smart assist).".

(** [if (c) canned.push(t)] *)
Definition push_if (c : bool) (t : string) (canned : list string) : list string :=
  if c then (canned ++ [t])%list else canned.

Definition generateOfflineChatbotResponse (message : string) : string :=
  let lower := toLowerCase message in
  let canned := [] in
  let canned := push_if (includes lower "beach") BEACH_TEXT canned in
  let canned :=
    push_if (includes lower "hotel" || includes lower "stay" || includes lower "resort")
      STAY_TEXT canned in
  let canned := push_if (includes lower "weather") WEATHER_TEXT canned in
  let canned :=
    push_if (includes lower "food" || includes lower "restaurant" || includes lower "eat")
      FOOD_TEXT canned in
  let canned :=
    push_if (includes lower "transport" || includes lower "taxi"
             || includes lower "cab" || includes lower "scooter")
      TRANSPORT_TEXT canned in
  let canned :=
    push_if (includes lower "emergency" || includes lower "help")
      EMERGENCY_TEXT canned in
  let canned :=
    match canned with
    | [] => [GENERIC_TEXT]
    | _ :: _ => canned
    end in
  join canned.

End Offline.

(** ** The phrase dictionaries of the translator (lines 253-419) *)

Module Dictionary.

Import JS.

(** The literal of ['English-Hindi'], in source order, repeated keys included. *)
Definition English_Hindi_literal : list (string * string) :=
  [ ("Hello", "नमस्ते")
  ; ("Hi", "नमस्ते")
  ; ("How are you?", "आप कैसे हैं?")
  ; ("What is your name?", "आपका नाम क्या है?")
  ; ("what is your name", "आपका नाम क्या है")
  ; ("What is your name", "आपका नाम क्या है")
  ; ("My name is", "मेरा नाम है")
  ; ("Nice to meet you", "आपसे मिलकर खुशी हुई")
  ; ("Thank you", "धन्यवाद")
  ; ("Thanks", "धन्यवाद")
  ; ("Good morning", "सुप्रभात")
  ; ("Good afternoon", "नमस्ते")
  ; ("Good evening", "शुभ संध्या")
  ; ("Good night", "शुभ रात्रि")
  ; ("Welcome", "स्वागत है")
  ; ("Please", "कृपया")
  ; ("Sorry", "माफ़ कीजिए")
  ; ("Excuse me", "माफ़ करें")
  ; ("Yes", "हाँ")
  ; ("No", "नहीं")
  ; ("Where is", "कहाँ है")
  ; ("Where are you from?", "आप कहाँ से हैं?")
  ; ("How much", "कितना")
  ; ("How old are you?", "आपकी उम्र क्या है?")
  ; ("I love you", "मैं तुमसे प्यार करता हूँ")
  ; ("Beautiful", "सुंदर")
  ; ("Delicious", "स्वादिष्ट")
  ; ("Help", "मदद")
  ; ("Water", "पानी")
  ; ("Food", "खाना")
  ; ("Beach", "समुद्र तट")
  ; ("Hotel", "होटल")
  ; ("Airport", "हवाई अड्डा")
  ; ("Station", "स्टेशन")
  ; ("Hospital", "अस्पताल")
  ; ("Police", "पुलिस")
  ; ("Market", "बाज़ार")
  ; ("Restaurant", "रेस्टोरेंट")
  ; ("Taxi", "टैक्सी")
  ; ("Bus", "बस")
  ; ("Train", "रेल")
  ; ("Money", "पैसा")
  ; ("Time", "समय")
  ; ("Today", "आज")
  ; ("Tomorrow", "कल")
  ; ("Yesterday", "कल (बीता हुआ)")
  ; ("Good morning", "सुप्रभात")
  ; ("How are you?", "आप कैसे हैं?")
  ; ("Where is", "कहाँ है")
  ; ("How much", "कितना")
  ; ("Beautiful", "सुंदर")
  ; ("Delicious", "स्वादिष्ट")
  ].

(** The literal of ['English-Konkani'], in source order, repeated keys included. *)
Definition English_Konkani_literal : list (string * string) :=
  [ ("Hello", "नमस्कार")
  ; ("Hi", "नमस्कार")
  ; ("How are you?", "तुमी कशे आसात?")
  ; ("What is your name?", "तुझे नांव कितें?")
  ; ("what is your name", "तुझे नांव कितें")
  ; ("What is your name", "तुझे नांव कितें")
  ; ("My name is", "म्हजे नांव")
  ; ("Nice to meet you", "तुका भेटून बरे दिसले")
  ; ("Thank you", "धन्यवाद")
  ; ("Thanks", "धन्यवाद")
  ; ("Good morning", "सुप्रभात")
  ; ("Good afternoon", "दनपारां बरे")
  ; ("Good evening", "सांजे बरे")
  ; ("Good night", "शुभ रात्रि")
  ; ("Welcome", "स्वागत")
  ; ("Please", "कृपया")
  ; ("Sorry", "माफ करात")
  ; ("Excuse me", "माफ करात")
  ; ("Yes", "हांय")
  ; ("No", "ना")
  ; ("Where is", "कुत्र आसा")
  ; ("Where are you from?", "तूं कुत्रां")
  ; ("How much", "किती")
  ; ("How old are you?", "तुझे वर्स किती?")
  ; ("I love you", "हांव तुका मोग करतां")
  ; ("Beautiful", "सुंदर")
  ; ("Delicious", "रुचीक")
  ; ("Help", "आदार")
  ; ("Water", "उदक")
  ; ("Food", "जेवण")
  ; ("Beach", "किनारो")
  ; ("Hotel", "धर्मशाळा")
  ; ("Airport", "विमानतळ")
  ; ("Station", "स्थानक")
  ; ("Hospital", "रुग्णालय")
  ; ("Police", "पोलीस")
  ; ("Market", "बाजार")
  ; ("Restaurant", "जेवणघर")
  ; ("Taxi", "टॅक्सी")
  ; ("Bus", "बस")
  ; ("Train", "रेल्व")
  ; ("Money", "पैसे")
  ; ("Time", "वेळ")
  ; ("Today", "आयज")
  ; ("Tomorrow", "फाल्यां")
  ; ("Yesterday", "काल")
  ; ("Good morning", "सुप्रभात")
  ; ("How are you?", "तुमी कशे आसात?")
  ; ("Where is", "कुत्र आसा")
  ; ("How much", "किती")
  ; ("Beautiful", "सुंदर")
  ; ("Delicious", "रुचीक")
  ].

(** The literal of ['English-Marathi'], in source order, repeated keys included. *)
Definition English_Marathi_literal : list (string * string) :=
  [ ("Hello", "नमस्कार")
  ; ("Hi", "नमस्कार")
  ; ("How are you?", "तुम्ही कसे आहात?")
  ; ("What is your name?", "तुमचे नाव काय?")
  ; ("what is your name", "तुमचे नाव काय")
  ; ("What is your name", "तुमचे नाव काय")
  ; ("My name is", "माझे नाव")
  ; ("Nice to meet you", "तुम्हाला भेटून आनंद झाला")
  ; ("Thank you", "धन्यवाद")
  ; ("Thanks", "धन्यवाद")
  ; ("Good morning", "सुप्रभात")
  ; ("Good afternoon", "नमस्कार")
  ; ("Good evening", "शुभ संध्या")
  ; ("Good night", "शुभ रात्रि")
  ; ("Welcome", "स्वागत आहे")
  ; ("Please", "कृपया")
  ; ("Sorry", "माफ करा")
  ; ("Excuse me", "माफ करा")
  ; ("Yes", "होय")
  ; ("No", "नाही")
  ; ("Where is", "कुठे आहे")
  ; ("Where are you from?", "तुम्ही कुठचे आहात?")
  ; ("How much", "किती")
  ; ("How old are you?", "तुमचे वय किती?")
  ; ("I love you", "मी तुझ्यावर प्रेम करतो")
  ; ("Beautiful", "सुंदर")
  ; ("Delicious", "चविष्ट")
  ; ("Help", "मदत")
  ; ("Water", "पाणी")
  ; ("Food", "अन्न")
  ; ("Beach", "समुद्रकिनारा")
  ; ("Hotel", "हॉटेल")
  ; ("Airport", "विमानतळ")
  ; ("Station", "स्थानक")
  ; ("Hospital", "रुग्णालय")
  ; ("Police", "पोलीस")
  ; ("Market", "बाजार")
  ; ("Restaurant", "जेवणघर")
  ; ("Taxi", "टॅक्सी")
  ; ("Bus", "बस")
  ; ("Train", "रेल्वे")
  ; ("Money", "पैसे")
  ; ("Time", "वेळ")
  ; ("Today", "आज")
  ; ("Tomorrow", "उद्या")
  ; ("Yesterday", "काल")
  ; ("Good morning", "सुप्रभात")
  ; ("How are you?", "तुम्ही कसे आहात?")
  ; ("Where is", "कुठे आहे")
  ; ("How much", "किती")
  ; ("Beautiful", "सुंदर")
  ; ("Delicious", "चविष्ट")
  ].

(** No phrase of a dictionary is mapped to the empty string. *)
Definition all_values_truthy (o : obj) : bool :=
  forallb (fun kv => truthy_str (snd kv)) o.

Definition fallbackTranslations : list (string * obj) :=
  [ ("English-Hindi", obj_of_literal English_Hindi_literal)
  ; ("English-Konkani", obj_of_literal English_Konkani_literal)
  ; ("English-Marathi", obj_of_literal English_Marathi_literal)
  ].

End Dictionary.

(** ** The translation endpoint, [POST /api/translate] (lines 123-488) *)

Module Translate.

Import JS.

(** The language codes of lines 127-134 only parametrise the calls of the
    providers, which the environment stands for. *)
Record body := Body {
  text : option string;
  fromLanguage : option string;
  toLanguage : option string
}.

(** The environment of one request: the configuration read from
    [process.env] and the outcome of each provider, should the handler
    call it. The field read from a reply is [result.text] for the Google
    client, [choices[0].message.content] for OpenRouter and
    [translatedText] for LibreTranslate and MyMemory. *)
Record env := Env {
  OPENROUTER_API_KEY : option string;
  OPENROUTER_DEFAULT_MODEL : option string;
  gtranslate : Provider.outcome;
  openrouter : Provider.outcome;
  libreTranslate : Provider.outcome;
  myMemoryTranslate : Provider.outcome
}.

(** The body of a 200 reply. [provider], [fallback] and [message] are
    [None] where the reply does not carry them. [translatedText] is the
    value the handler puts in the body; only a string is serialised as
    text. *)
Record ok := Ok {
  success : bool;
  originalText : string;
  translatedText : value;
  ok_fromLanguage : string;
  ok_toLanguage : string;
  provider : option string;
  fallback : option bool;
  message : option string
}.

Inductive response :=
| Failed (e : Http.error_body)
| Replied (r : ok).

Definition CHATBOT_PROVIDER_COOLDOWN_MS : Z := 1 * 1000.

Section Patterns.

(** The export of [./translationPatterns], a module that is not part
    of the sources at hand: an object keyed by language pair whose
    values are word tables. *)
Variable translationPatterns : list (string * obj).

(** One turn of the loop over the words (lines 445-469): the
    translation pushed for [word], and whether it counts as one. *)
Definition translate_word (patterns : option obj) (translationMap : obj)
    (word : string) : value * bool :=
  let hit :=
    match patterns with
    | Some p => get p word
    | None => VUndefined
    end in
  if truthy_value hit then (hit, true)
  else
    match find_key
            (fun key => includes (toLowerCase key) word
                        || includes word (toLowerCase key))
            (keys translationMap) with
    | Some foundKey =>
        if truthy_str foundKey then (get translationMap foundKey, true)
        else (VStr word, false)
    | None => (VStr word, false)
    end.

(** The offline translation (lines 424-476). *)
Definition offline_translate (text fromLanguage toLanguage : string) : value :=
  let key := fromLanguage ++ "-" ++ toLanguage in
  match own_get key Dictionary.fallbackTranslations with
  | None => VStr text
  | Some translationMap =>
      let exact := get translationMap text in
      if truthy_value exact then exact
      else
        let lowerText := toLowerCase text in
        match find_key (fun key => String.eqb (toLowerCase key) lowerText)
                (keys translationMap) with
        | Some (String c r as exactKey) => get translationMap exactKey
        | _ =>
            let words := split_ws (toLowerCase text) in
            let patterns := own_get key translationPatterns in
            let translations :=
              map (translate_word patterns translationMap) words in
            if existsb snd translations
            then VStr (join (map (fun t => render (fst t)) translations))
            else VStr text
        end
  end.

Definition provider_reply (text fromLanguage toLanguage translated name : string)
    : response :=
  Replied (Ok true text (VStr translated) fromLanguage toLanguage
             (Some name) None None).

(** The [catch] block of the handler (lines 165-487), entered with the
    error of the first provider. Returns the new value of
    [chatbotProviderCooldownUntil], the reply and the providers
    contacted in the block. *)
Definition translate_catch (e : env) (now cooldown : Z)
    (text fromLanguage toLanguage : string) (error : Provider.failure)
    : Z * response * list string :=
  let providerStatus := Provider.status error in
  let model := or_default (OPENROUTER_DEFAULT_MODEL e) "gpt-5.1-codex-max" in
  let tried_or := if truthy (OPENROUTER_API_KEY e) then ["openrouter"] else [] in
  let or_hit :=
    if truthy (OPENROUTER_API_KEY e) then
      match openrouter e with
      | Provider.Returned (Some content) =>
          if truthy_str content then Some content else None
      | _ => None
      end
    else None in
  match or_hit with
  | Some content =>
      (cooldown,
       provider_reply text fromLanguage toLanguage (trim content)
         ("openrouter:" ++ model),
       tried_or)
  | None =>
      match libreTranslate e with
      | Provider.Returned (Some (String c r as translated)) =>
          (cooldown,
           provider_reply text fromLanguage toLanguage (trim translated)
             "libretranslate",
           (tried_or ++ ["libretranslate"])%list)
      | _ =>
          match myMemoryTranslate e with
          | Provider.Returned (Some (String c r as translated)) =>
              (cooldown,
               provider_reply text fromLanguage toLanguage (trim translated)
                 "mymemory",
               (tried_or ++ ["libretranslate"; "mymemory"])%list)
          | _ =>
              let limited := Provider.status_is providerStatus 429 in
              let cooldown' :=
                if limited then (now + CHATBOT_PROVIDER_COOLDOWN_MS)%Z
                else cooldown in
              (cooldown',
               Replied
                 (Ok true text
                    (offline_translate text fromLanguage toLanguage)
                    fromLanguage toLanguage None (Some true)
                    (Some (if limited
                           then "Rate limited. Using fallback translation."
                           else "Using fallback translation"))),
               (tried_or ++ ["libretranslate"; "mymemory"])%list)
          end
      end
  end.

(** The handler. [now] is the reading of [Date.now()], [cooldown] the
    value of [chatbotProviderCooldownUntil] when the request arrives. *)
Definition translate (e : env) (now cooldown : Z) (b : body)
    : Z * response * list string :=
  match text b, fromLanguage b, toLanguage b with
  | Some (String _ _ as text), Some (String _ _ as fromLanguage),
    Some (String _ _ as toLanguage) =>
      match gtranslate e with
      | Provider.Returned (Some (String c r as result_text)) =>
          (cooldown,
           provider_reply text fromLanguage toLanguage (trim result_text)
             "google-translate-ai",
           ["google-translate"])
      | Provider.Returned _ =>
          let '(cd, resp, tr) :=
            translate_catch e now cooldown text fromLanguage toLanguage
              (Provider.Failure "No translation result from AI" None) in
          (cd, resp, "google-translate" :: tr)
      | Provider.Threw error =>
          let '(cd, resp, tr) :=
            translate_catch e now cooldown text fromLanguage toLanguage error in
          (cd, resp, "google-translate" :: tr)
      end
  | _, _, _ =>
      (cooldown,
       Failed (Http.ErrorBody 400
                 "Missing required parameters: text, fromLanguage, toLanguage"
                 None None),
       [])
  end.

End Patterns.

(** Every provider of the chain fails. *)
Definition all_fail (e : env) : bool :=
  Provider.failed (gtranslate e) && Provider.failed (openrouter e)
  && Provider.failed (libreTranslate e) && Provider.failed (myMemoryTranslate e).

(** The reply carries a non-empty text in [translatedText]. *)
Definition has_text (r : ok) : bool :=
  match translatedText r with
  | VStr s => truthy_str s
  | _ => false
  end.

End Translate.

(** ** The chatbot endpoint, [POST /api/chatbot] (lines 583-736) *)

Module Chatbot.

Import JS.

Record body := Body {
  message : option string;
  context : option string
}.

(** The configuration and the outcome of each provider, should the
    handler call it: the configurable OpenRouter model, Gemini, and the
    free OpenRouter model tried after an overloaded or failing Gemini. *)
Record env := Env {
  OPENROUTER_API_KEY : option string;
  OPENROUTER_DEFAULT_MODEL : option string;
  openrouter : Provider.outcome;
  gemini : Provider.outcome;
  openrouter_free : Provider.outcome
}.

(** The body of a 200 reply; [fallback] and [rateLimited] are [None]
    where the reply does not carry them. [timestamp] is the clock reading
    the ISO date is printed from. *)
Record ok := Ok {
  success : bool;
  reply : string;
  ok_context : string;
  fallback : option bool;
  rateLimited : option bool;
  provider : string;
  timestamp : Z
}.

Inductive response :=
| Failed (e : Http.error_body)
| Throttled (t : RateLimiter.throttled)
| Replied (r : ok).

Definition CHATBOT_PROVIDER_COOLDOWN_MS : Z := 1 * 1000.

(** [const { context = 'travel' } = req.body] *)
Definition context_of (b : body) : string :=
  match context b with Some c => c | None => "travel" end.

(** The [catch] block (lines 665-735), entered with the error of the
    Gemini call. *)
Definition chatbot_catch (e : env) (now cooldown : Z) (b : body)
    (error : Provider.failure) : Z * response * list string :=
  let providerStatus := Provider.status error in
  let retry :=
    (Provider.status_is providerStatus 429 || Provider.status_ge providerStatus 500)
    && truthy (OPENROUTER_API_KEY e) in
  let tried := if retry then ["openrouter-free"] else [] in
  let free_hit :=
    if retry then
      match openrouter_free e with
      | Provider.Returned (Some content) =>
          if truthy_str content then Some content else None
      | _ => None
      end
    else None in
  match free_hit with
  | Some content =>
      (cooldown,
       Replied (Ok true (trim content) (context_of b) None None
                  "openrouter-llama-free" now),
       tried)
  | None =>
      let limited := Provider.status_is providerStatus 429 in
      let cooldown' :=
        if limited then (now + CHATBOT_PROVIDER_COOLDOWN_MS)%Z else cooldown in
      let offlineResponse :=
        Offline.generateOfflineChatbotResponse (or_default (message b) "") in
      (cooldown',
       Replied (Ok true offlineResponse (context_of b) (Some true)
                  (Some limited) "offline-goa-guide" now),
       tried)
  end.

(** The handler. [cooldown] is the value of
    [chatbotProviderCooldownUntil] when the request arrives; the handler
    never reads it, and overwrites it with [0] once the message has been
    found present (lines 593-596). *)
Definition chatbot (e : env) (now cooldown : Z) (b : body)
    : Z * response * list string :=
  if negb (truthy (message b)) then
    (cooldown, Failed (Http.ErrorBody 400 "Message is required" None None), [])
  else
    let cooldown := 0%Z in
    let model := or_default (OPENROUTER_DEFAULT_MODEL e) "gpt-5.1-codex-max" in
    let keyed := truthy (OPENROUTER_API_KEY e) in
    let tried_or := if keyed then ["openrouter"] else [] in
    let or_hit :=
      if keyed then
        match openrouter e with
        | Provider.Returned (Some content) =>
            if truthy_str content then Some content else None
        | _ => None
        end
      else None in
    match or_hit with
    | Some content =>
        (cooldown,
         Replied (Ok true (trim content) (context_of b) None None
                    ("openrouter:" ++ model) now),
         tried_or)
    | None =>
        match gemini e with
        | Provider.Returned (Some (String c r as text)) =>
            (cooldown,
             Replied (Ok true (trim text) (context_of b) None None
                        "gemini-1.5-flash" now),
             (tried_or ++ ["gemini"])%list)
        | Provider.Returned _ =>
            let '(cd, resp, tr) :=
              chatbot_catch e now cooldown b
                (Provider.Failure "Invalid chatbot response" None) in
            (cd, resp, (tried_or ++ "gemini" :: tr)%list)
        | Provider.Threw error =>
            let '(cd, resp, tr) := chatbot_catch e now cooldown b error in
            (cd, resp, (tried_or ++ "gemini" :: tr)%list)
        end
    end.

(** Every provider of the chain fails. *)
Definition all_fail (e : env) : bool :=
  Provider.failed (openrouter e) && Provider.failed (gemini e)
  && Provider.failed (openrouter_free e).

End Chatbot.

(** ** The application: shared state and the chatbot route *)

Module App.

(** The two module-level variables of the server. *)
Record state := State {
  chatbotRateLimitStore : gmap string RateLimiter.entry;
  chatbotProviderCooldownUntil : Z
}.

Definition initial : state := State ∅ 0.

(** A request to [/api/chatbot]: its origin, its body, and the
    environment and clock it meets. *)
Record chat_request := ChatRequest {
  origin : RateLimiter.origin;
  body : Chatbot.body;
  env : Chatbot.env;
  now : Z
}.

(** What a middleware does with a request: it answers, or it hands the
    request to the next function of the route. *)
Inductive step :=
| Answer (r : Chatbot.response) (contacted : list string)
| Continue.

Definition middleware : Type := state -> chat_request -> state * step.

(** The chatbot handler as the last function of a route. *)
Definition chatbot_handler : middleware := fun st rq =>
  let '(cd, resp, contacted) :=
    Chatbot.chatbot (env rq) (now rq) (chatbotProviderCooldownUntil st) (body rq) in
  (State (chatbotRateLimitStore st) cd, Answer resp contacted).

(** Express runs the functions of a route in order until one answers. *)
Fixpoint dispatch (route : list middleware) (st : state) (rq : chat_request)
    : state * option (Chatbot.response * list string) :=
  match route with
  | [] => (st, None)
  | m :: rest =>
      match m st rq with
      | (st', Answer r contacted) => (st', Some (r, contacted))
      | (st', Continue) => dispatch rest st' rq
      end
  end.

(** [app.post('/api/chatbot', async (req, res) => { ... })] (line 583):
    the route holds the handler alone. *)
Definition chatbot_route : list middleware := [chatbot_handler].

(** The server handling a sequence of chatbot requests. *)
Fixpoint serve (st : state) (rqs : list chat_request)
    : state * list (option (Chatbot.response * list string)) :=
  match rqs with
  | [] => (st, [])
  | rq :: rest =>
      let '(st1, out) := dispatch chatbot_route st rq in
      let '(st2, outs) := serve st1 rest in
      (st2, out :: outs)
  end.

Definition status_of (r : Chatbot.response) : Z :=
  match r with
  | Chatbot.Failed e => Http.status e
  | Chatbot.Throttled t => RateLimiter.th_status t
  | Chatbot.Replied _ => 200
  end.

(** The request was answered with status 200 after a provider had been
    contacted. *)
Definition served_by_provider (out : option (Chatbot.response * list string))
    : bool :=
  match out with
  | Some (r, contacted) =>
      Z.eqb (status_of r) 200
      && match contacted with [] => false | _ :: _ => true end
  | None => false
  end.

End App.

(** ** Place discovery, [POST /api/places/nearby] (lines 739-877) *)

Module Places.

Import JS.

Record body := Body {
  latitude : option Q;
  longitude : option Q;
  radius : option Q;
  type : option string
}.

(** An element of an Overpass reply: nodes carry [lat] and [lon], ways
    carry [center]; every element carries its [id]. *)
Record element := Element {
  id : Z;
  lat : option Q;
  lon : option Q;
  center : option (Q * Q);
  tags : option (gmap string string)
}.

Record place := Place {
  pl_id : string;
  name : string;
  category : string;
  distance : Q;
  address : string;
  pl_lat : Q;
  pl_lon : Q;
  phone : option string;
  website : option string;
  openingHours : option string
}.

(** The outcome of the POST to one Overpass server: it throws, or it
    answers; [Answered None] is an answer in which
    [response.data && response.data.elements] is falsy. *)
Inductive outcome :=
| Broke (e : Provider.failure)
| Answered (elements : option (list element)).

Inductive response :=
| Failed (e : Http.error_body)
| Found (places : list place) (total : nat).

Definition overpassUrls : list string :=
  [ "https://overpass.kumi.systems/api/interpreter"
  ; "https://overpass-api.de/api/interpreter"
  ; "https://maps.mail.ru/osm/tools/overpass/api/interpreter" ].

(** The loop over the servers (lines 788-802): the first answer, the
    last error, and the servers contacted. *)
Fixpoint query (overpass : string -> outcome) (urls : list string)
    (lastError : option Provider.failure) (contacted : list string)
    : option (option (list element)) * option Provider.failure * list string :=
  match urls with
  | [] => (None, lastError, contacted)
  | overpassUrl :: rest =>
      match overpass overpassUrl with
      | Answered data => (Some data, lastError, (contacted ++ [overpassUrl])%list)
      | Broke error =>
          query overpass rest (Some error) (contacted ++ [overpassUrl])%list
      end
  end.

(** [radius || 5000] *)
Definition searchRadius (b : body) : Q :=
  match radius b with
  | Some r => if truthy_num r then r else 5000
  | None => 5000
  end.

Definition tag (el : element) (k : string) : option string :=
  match tags el with
  | Some t => t !! k
  | None => None
  end.

(** [element.tags && element.tags.name] *)
Definition named (el : element) : bool := truthy (tag el "name").

(** [Math.round(x * 10) / 10]; [Math.round] rounds a half upwards. *)
Definition round1 (x : Q) : Q := inject_Z (Qfloor (x * 10 + (1 # 2))) / 10.

(** [a] is at most as far as [b]. *)
Definition closer (a b : place) : Prop := (distance a <= distance b)%Q.

(** [a.distance - b.distance], the comparator given to [sort]. *)
Definition by_distance (a b : place) : Q := distance a - distance b.

(** [Array.prototype.sort] is stable; on a list it is the insertion of
    each element before the first one it does not follow. *)
Fixpoint insert_sorted (cmp : place -> place -> Q) (x : place) (l : list place)
    : list place :=
  match l with
  | [] => [x]
  | y :: r =>
      if Qle_bool (cmp x y) 0 then x :: y :: r
      else y :: insert_sorted cmp x r
  end.

Definition sort (cmp : place -> place -> Q) (l : list place) : list place :=
  fold_right (insert_sorted cmp) [] l.

Section Distance.

(** The haversine expression of lines 814-825, [R * c] with
    [R = 6371], as a function of the place's and of the query's
    coordinates. Its value is computed with the trigonometric functions
    of the platform. *)
Variable haversine : Q -> Q -> Q -> Q -> Q.

Definition to_place (latitude longitude : Q) (el : element) : place :=
  let lat :=
    if truthy_onum (lat el) then default latitude (lat el)
    else match center el with
         | Some c => fst c
         | None => latitude
         end in
  let lon :=
    if truthy_onum (lon el) then default longitude (lon el)
    else match center el with
         | Some c => snd c
         | None => longitude
         end in
  let distance := haversine lat lon latitude longitude in
  let category :=
    if truthy (tag el "amenity") then default "" (tag el "amenity")
    else if truthy (tag el "tourism") then default "" (tag el "tourism")
    else if truthy (tag el "shop") then "shopping"
    else "place" in
  let address :=
    if truthy (tag el "addr:street") then
      default "" (tag el "addr:street")
      ++ (if truthy (tag el "addr:housenumber")
          then " " ++ default "" (tag el "addr:housenumber")
          else "")
    else or_default (tag el "addr:city") "Near you" in
  Place (pretty (id el)) (default "" (tag el "name")) category
    (round1 distance) address lat lon
    (or_else (tag el "phone") (tag el "contact:phone"))
    (or_else (tag el "website") (tag el "contact:website"))
    (tag el "opening_hours").

(** Lines 810-853: keep the named elements, build the places, keep
    those within the search radius, sort them, keep the first 50. *)
Definition process (latitude longitude radius_m : Q) (elements : list element)
    : list place :=
  let places :=
    List.filter (fun p => Qle_bool (distance p) (radius_m / 1000))
      (map (to_place latitude longitude) (List.filter named elements)) in
  firstn 50 (sort by_distance places).

(** The handler: the reply and the servers contacted. *)
Definition nearby (overpass : string -> outcome) (b : body)
    : response * list string :=
  if negb (truthy_onum (latitude b)) || negb (truthy_onum (longitude b)) then
    (Failed (Http.ErrorBody 400
               "Missing required parameters: latitude, longitude" None None),
     [])
  else
    let latitude := default 0%Q (latitude b) in
    let longitude := default 0%Q (longitude b) in
    let '(response, lastError, contacted) := query overpass overpassUrls None [] in
    match response with
    | None =>
        let error :=
          match lastError with
          | Some e => e
          | None => Provider.Failure "All Overpass API servers failed" None
          end in
        (Failed (Http.ErrorBody 500 "Failed to fetch nearby places"
                   (Some (Provider.message error))
                   (Some "OpenStreetMap Overpass API may be temporarily unavailable. Please try again.")),
         contacted)
    | Some (Some elements) =>
        let sortedPlaces := process latitude longitude (searchRadius b) elements in
        (Found sortedPlaces (length sortedPlaces), contacted)
    | Some None => (Found [] 0, contacted)
    end.

End Distance.


End Places.

(** ** Sample requests and environments *)

Module Samples.

(** A client and a call of the limiter made in its name. *)
Definition client : RateLimiter.origin :=
  RateLimiter.Origin (Some "203.0.113.7") None.

Definition other_client : RateLimiter.origin :=
  RateLimiter.Origin None (Some "198.51.100.4").

(** 49 calls of [client] spread over a window opened at [1000], with a
    call of another client in between. *)
Definition window_calls : list (Z * RateLimiter.origin) :=
  ((1500%Z, other_client)
     :: map (fun i => (1000 + 100 * Z.of_nat i, client)%Z) (seq 1 49))%list.

Definition unreachable : Provider.outcome :=
  Provider.Threw (Provider.Failure "connect ECONNREFUSED" None).

Definition overloaded : Provider.outcome :=
  Provider.Threw (Provider.Failure "Request failed with status code 429" (Some 429%Z)).

(** A chatbot environment without an OpenRouter key in which Gemini
    answers. *)
Definition gemini_answers : Chatbot.env :=
  Chatbot.Env None None unreachable
    (Provider.Returned (Some "Baga and Palolem are lovely."))
    unreachable.

(** A chatbot environment in which Gemini signals overload. *)
Definition gemini_overloaded : Chatbot.env :=
  Chatbot.Env None None unreachable overloaded unreachable.

Definition chat_down : Chatbot.env :=
  Chatbot.Env (Some "sk-or-test") None unreachable overloaded unreachable.

Definition beach_question : Chatbot.body :=
  Chatbot.Body (Some "Which BEACH is quiet?") None.

(** 51 requests of one client within 5.1 seconds. *)
Definition burst : list App.chat_request :=
  map (fun i => App.ChatRequest client beach_question gemini_answers
                  (1000 + 100 * Z.of_nat i)%Z)
      (seq 0 51).

(** A request answered by an overloaded Gemini at [1000], and the next
    one 200 ms later. *)
Definition first_request : App.chat_request :=
  App.ChatRequest client beach_question gemini_overloaded 1000%Z.

Definition second_request : App.chat_request :=
  App.ChatRequest client beach_question gemini_answers 1200%Z.

Definition translate_down : Translate.env :=
  Translate.Env (Some "sk-or-test") None overloaded unreachable
    (Provider.Returned None) (Provider.Returned (Some "")).

Definition hello : Translate.body :=
  Translate.Body (Some "Hello") (Some "English") (Some "Hindi").

(** A translation request that names no source language. *)
Definition hello_no_source : Translate.body :=
  Translate.Body (Some "Hello") None (Some "Hindi").

(** A query point in Goa, and a cafe 0.01 degree of latitude to the
    north of it. *)
Definition goa_lat : Q := 153 # 10.
Definition goa_lon : Q := 741 # 10.

Definition cafe : Places.element :=
  Places.Element 42%Z (Some (1531 # 100)) (Some goa_lon) None
    (Some (<["name" := "Cafe Bodega"]> (<["amenity" := "cafe"]> ∅))).

(** The value of the haversine expression between the cafe and the query
    point: [6371 * 0.01 * PI / 180 = 1.112] km; any other pair of points
    is given the distance [0]. *)
Definition sample_haversine (lat lon latitude longitude : Q) : Q :=
  if Qeq_bool lat (1531 # 100) && Qeq_bool lon goa_lon
     && Qeq_bool latitude goa_lat && Qeq_bool longitude goa_lon
  then 1112 # 1000 else 0.

(** The first server answers with the cafe. *)
Definition first_answers (url : string) : Places.outcome :=
  Places.Answered (Some [cafe]).


(** A query around the point with [radius: 0]. *)
Definition radius_zero : Places.body :=
  Places.Body (Some goa_lat) (Some goa_lon) (Some 0%Q) None.

Definition around_goa : Places.body :=
  Places.Body (Some goa_lat) (Some goa_lon) (Some 5000%Q) (Some "all").

(** A query on the equator. *)
Definition on_equator : Places.body :=
  Places.Body (Some 0%Q) (Some goa_lon) None None.

End Samples.

(** ** The weather endpoints, [GET /api/weather/:city] and
    [GET /api/weather/coords/:lat/:lon] (lines 491-580) *)

Module Weather.

Import JS.

(** The parts of an OpenWeather reply the handlers read. A part that the
    reply lacks is [None]; reading a field of a missing part throws. *)
Record sys_part := Sys { country : option string }.

Record main_part := Main {
  temp : option Q;
  feels_like : option Q;
  humidity : option Q;
  pressure : option Q
}.

Record condition := Condition {
  description : option string;
  icon : option string
}.

Record wind_part := Wind { speed : option Q }.
Record clouds_part := Clouds { all : option Q }.
Record coord_part := Coord { lat : option Q; lon : option Q }.

Record data := Data {
  name : option string;
  sys : option sys_part;
  main : option main_part;
  weather : option (list condition);
  wind : option wind_part;
  clouds : option clouds_part;
  coord : option coord_part
}.

(** The outcome of the GET: it throws, or it returns with [response.data]. *)
Inductive outcome :=
| Threw (e : Provider.failure)
| Returned (d : option data).

(** The body of a 200 reply. A number field is [None] where the handler
    puts [undefined] or [NaN]; [coordinates] is carried by the second
    endpoint only. *)
Record ok := Ok {
  success : bool;
  city : option string;
  ok_country : option string;
  temperature : option Z;
  feelsLike : option Z;
  ok_description : option string;
  ok_icon : option string;
  ok_humidity : option Q;
  ok_pressure : option Q;
  windSpeed : option Q;
  ok_clouds : option Q;
  coordinates : option (option Q * option Q);
  timestamp : Z
}.

Inductive response :=
| Failed (e : Http.error_body)
| Replied (r : ok).

(** [Math.round]: the nearest integer, a half going upwards; [NaN] for
    [undefined]. *)
Definition round (x : option Q) : option Z :=
  match x with
  | Some q => Some (Qfloor (q + (1 # 2)))
  | None => None
  end.

(** The object of lines 507-520, or [None] when building it throws a
    [TypeError]: [weatherData] is missing, or one of [sys], [main],
    [weather[0]], [wind], [clouds] is. *)
Definition city_reply (now : Z) (d : option data) : option ok :=
  match d with
  | Some weatherData =>
      match sys weatherData, main weatherData, weather weatherData,
            wind weatherData, clouds weatherData with
      | Some s, Some m, Some (w0 :: _), Some w, Some c =>
          Some (Ok true (name weatherData) (country s)
                  (round (temp m)) (round (feels_like m))
                  (description w0) (icon w0) (humidity m) (pressure m)
                  (speed w) (all c) None now)
      | _, _, _, _, _ => None
      end
  | None => None
  end.

(** The object of lines 556-570: as above, with [coordinates] read from
    [weatherData.coord]. *)
Definition coords_reply (now : Z) (d : option data) : option ok :=
  match d with
  | Some weatherData =>
      match sys weatherData, main weatherData, weather weatherData,
            wind weatherData, clouds weatherData, coord weatherData with
      | Some s, Some m, Some (w0 :: _), Some w, Some c, Some xy =>
          Some (Ok true (name weatherData) (country s)
                  (round (temp m)) (round (feels_like m))
                  (description w0) (icon w0) (humidity m) (pressure m)
                  (speed w) (all c) (Some (lat xy, lon xy)) now)
      | _, _, _, _, _, _ => None
      end
  | None => None
  end.

Definition generic_failure : Http.error_body :=
  Http.ErrorBody 500 "Failed to fetch weather data" (Some "Please try again later") None.

(** [GET /api/weather/:city] (lines 491-537): the reply and the number of
    calls made to OpenWeather. *)
Definition by_city (openweather : outcome) (now : Z) (city : string)
    : response * nat :=
  if negb (truthy_str city) then
    (Failed (Http.ErrorBody 400 "City parameter is required" None None), 0%nat)
  else
    match openweather with
    | Returned d =>
        match city_reply now d with
        | Some r => (Replied r, 1%nat)
        | None => (Failed generic_failure, 1%nat)
        end
    | Threw error =>
        if Provider.status_is (Provider.status error) 404 then
          (Failed (Http.ErrorBody 404 "City not found"
                     (Some "Please check the city name and try again") None),
           1%nat)
        else (Failed generic_failure, 1%nat)
    end.

(** [GET /api/weather/coords/:lat/:lon] (lines 540-580); the two
    parameters are the strings of the path. *)
Definition by_coords (openweather : outcome) (now : Z) (lat lon : string)
    : response * nat :=
  if negb (truthy_str lat) || negb (truthy_str lon) then
    (Failed (Http.ErrorBody 400 "Latitude and longitude parameters are required"
               None None),
     0%nat)
  else
    match openweather with
    | Returned d =>
        match coords_reply now d with
        | Some r => (Replied r, 1%nat)
        | None => (Failed generic_failure, 1%nat)
        end
    | Threw error => (Failed generic_failure, 1%nat)
    end.

Definition status_of (r : response) : Z :=
  match r with
  | Failed e => Http.status e
  | Replied _ => 200
  end.

End Weather.

(** ** Counting the verdicts of the limiter *)

Module Verdicts.

Import RateLimiter.

Definition passed (v : verdict) : bool :=
  match v with Next => true | Rejected _ => false end.

(** The verdicts given to the calls of [key], in order. *)
Definition verdicts_of (key : string) (calls : list (Z * origin))
    (verdicts : list verdict) : list verdict :=
  map snd (List.filter (fun cv => from_key key (fst cv)) (combine calls verdicts)).

(** The number of calls of [key] that passed. *)
Definition passes_of (key : string) (calls : list (Z * origin))
    (verdicts : list verdict) : Z :=
  Z.of_nat (length (List.filter passed (verdicts_of key calls verdicts))).

End Verdicts.

(** ** More sample inputs *)

Module Cases.

(** A haversine stand-in that is 0 everywhere. *)
Definition no_distance (lat lon latitude longitude : Q) : Q := 0.

(** 98 calls of [Samples.client] inside the window opened at [1000]. *)
Definition crowded_window : list (Z * RateLimiter.origin) :=
  (Samples.window_calls ++ Samples.window_calls)%list.

(** The store after the client has used its quota in the window opened at
    [1000]. *)
Definition used_up : gmap string RateLimiter.entry :=
  (RateLimiter.run ∅ ((1000%Z, Samples.client) :: Samples.window_calls)).1.

(** The first Overpass server times out, the others answer with the
    cafe. *)
Definition second_answers (url : string) : Places.outcome :=
  if String.eqb url "https://overpass.kumi.systems/api/interpreter"
  then Places.Broke (Provider.Failure "timeout of 15000ms exceeded" None)
  else Places.Answered (Some [Samples.cafe]).

(** A complete OpenWeather reply for Panaji, and the same reply without
    its [wind] part. *)
Definition panaji : Weather.data :=
  Weather.Data (Some "Panaji") (Some (Weather.Sys (Some "IN")))
    (Some (Weather.Main (Some (295 # 10)) (Some (33 # 1)) (Some (78 # 1))
             (Some (1009 # 1))))
    (Some [Weather.Condition (Some "haze") (Some "50d")])
    (Some (Weather.Wind (Some (36 # 10))))
    (Some (Weather.Clouds (Some (20 # 1))))
    (Some (Weather.Coord (Some (155 # 10)) (Some (738 # 10)))).

Definition city_unknown : Weather.outcome :=
  Weather.Threw (Provider.Failure "Request failed with status code 404" (Some 404%Z)).

(** A query with a negative radius. *)
Definition negative_radius : Places.body :=
  Places.Body (Some Samples.goa_lat) (Some Samples.goa_lon) (Some (-(1000))%Q) None.

End Cases.

(** ** Reading the outcome of a provider *)

Module Chain.

Import JS.

(** The non-empty text a call returned, if it did. *)
Definition answered (o : Provider.outcome) : option string :=
  match o with
  | Provider.Returned (Some content) =>
      if truthy_str content then Some content else None
  | _ => None
  end.

(** The error a handler is left with when a call it does not guard gave no
    text: the error thrown, or the one the handler throws itself. *)
Definition caught (own_message : string) (o : Provider.outcome) : Provider.failure :=
  match o with
  | Provider.Threw e => e
  | Provider.Returned _ => Provider.Failure own_message None
  end.


(** The providers of the translation chain, in order, for a
    configuration with or without an OpenRouter key. *)
Definition translation_chain (keyed : bool) : list string :=
  ("google-translate" :: (if keyed then ["openrouter"] else [])
     ++ ["libretranslate"; "mymemory"])%list.



End Chain.

(** ** The topics of the offline responder *)

Module Topics.

Import JS.

(** The keywords tested by lines 33-50, with the paragraph each test
    pushes, in the order of the tests. *)
Definition topics : list (list string * string) :=
  [ (["beach"], Offline.BEACH_TEXT)
  ; (["hotel"; "stay"; "resort"], Offline.STAY_TEXT)
  ; (["weather"], Offline.WEATHER_TEXT)
  ; (["food"; "restaurant"; "eat"], Offline.FOOD_TEXT)
  ; (["transport"; "taxi"; "cab"; "scooter"], Offline.TRANSPORT_TEXT)
  ; (["emergency"; "help"], Offline.EMERGENCY_TEXT) ].

(** The lower-case form of the message contains one of the keywords. *)
Definition mentions (message : string) (keywords : list string) : bool :=
  existsb (includes (toLowerCase message)) keywords.

End Topics.

(** * Properties *)

(** ** The definitions at work *)

Module Examples.

Import JS.

Example split_keeps_outer_blanks : split_ws " a  b " = [""; "a"; "b"; ""].
Proof. reflexivity. Qed.

Example trim_strips_both_ends : trim "  a b  " = "a b".
Proof. reflexivity. Qed.

Example literal_keeps_first_position :
  obj_of_literal [("a", "1"); ("b", "2"); ("a", "3")] = [("a", "3"); ("b", "2")].
Proof. reflexivity. Qed.

Example phrase_without_capital :
  Translate.offline_translate [] "hello" "English" "Hindi" = VStr "नमस्ते".
Proof. vm_compute. reflexivity. Qed.

Example word_by_word :
  Translate.offline_translate [] "the beach" "English" "Hindi"
  = VStr "the समुद्र तट".
Proof. vm_compute. reflexivity. Qed.

Example pattern_table_first :
  Translate.offline_translate [("English-Hindi", [("the", "वह")])]
    "the beach" "English" "Hindi"
  = VStr "वह समुद्र तट".
Proof. vm_compute. reflexivity. Qed.

Example unknown_pair_echoes :
  Translate.offline_translate [] "Hello" "Hindi" "English" = VStr "Hello".
Proof. vm_compute. reflexivity. Qed.

Example two_buckets :
  Offline.generateOfflineChatbotResponse "Any BEACH hotel?"
  = Offline.BEACH_TEXT ++ " " ++ Offline.STAY_TEXT.
Proof. vm_compute. reflexivity. Qed.

Example no_bucket :
  Offline.generateOfflineChatbotResponse "Namaste" = Offline.GENERIC_TEXT.
Proof. vm_compute. reflexivity. Qed.

(** With a key configured and Gemini overloaded, the three providers are
    tried in turn and the cooldown is set one second ahead. *)
Example overloaded_chain :
  Chatbot.chatbot Samples.chat_down 1000 0 Samples.beach_question
  = (2000%Z,
     Chatbot.Replied
       (Chatbot.Ok true Offline.BEACH_TEXT "travel" (Some true) (Some true)
          "offline-goa-guide" 1000),
     ["openrouter"; "gemini"; "openrouter-free"]).
Proof. vm_compute. reflexivity. Qed.

(** The 51st call of a client inside its window. *)
Example fifty_first_call :
  (RateLimiter.chatbotRateLimiter 7000 Samples.client
     (RateLimiter.run ∅ ((1000%Z, Samples.client) :: Samples.window_calls)).1).2
  = RateLimiter.Rejected
      (RateLimiter.Throttled 429
         "Too many requests to chatbot. Please try again shortly."
         true 54000 60000).
Proof. vm_compute. reflexivity. Qed.

Example half_rounds_up : (Places.round1 (5 # 100) == 1 # 10)%Q.
Proof. reflexivity. Qed.

End Examples.

(** ** Strings and objects *)

Module JSFacts.

Import JS.

Lemma prefix_append s t : String.prefix s (s ++ t) = true.
Proof.
  induction s as [|c s IH]; [now destruct t|].
  change (String.prefix (String c s) (String c (s ++ t)) = true). cbn.
  destruct (ascii_dec c c); [exact IH | congruence].
Qed.

Lemma includes_prefix s sub : String.prefix sub s = true -> includes s sub = true.
Proof. intros H. destruct s; cbn in *; rewrite H; reflexivity. Qed.

Lemma includes_append s t : includes (s ++ t) s = true.
Proof. apply includes_prefix, prefix_append. Qed.

Lemma truthy_append_l s t : truthy_str s = true -> truthy_str (s ++ t) = true.
Proof. destruct s; [discriminate | reflexivity]. Qed.

(** The head of a list is a prefix of its [join]. *)
Lemma join_cons x l : exists rest, join (x :: l) = x ++ rest.
Proof.
  unfold join. destruct l as [|y l]; cbn.
  - exists "". induction x as [|c x IH]; [reflexivity|].
    change (String c x = String c (x ++ "")). now f_equal.
  - eexists. reflexivity.
Qed.

(** A [join] is empty only if all its elements are. *)
Lemma join_truthy l :
  existsb truthy_str l = true -> truthy_str (join l) = true.
Proof.
  unfold join. induction l as [|x l IH]; cbn; [discriminate|].
  destruct l as [|y l].
  - now rewrite orb_false_r.
  - intros _. destruct x; reflexivity.
Qed.

Lemma render_truthy v : truthy_value v = true -> truthy_str (render v) = true.
Proof.
  destruct v as [s|name|]; cbn; [auto | | discriminate].
  intros _. destruct (String.eqb name "__proto__"); reflexivity.
Qed.

Lemma own_get_In {A} k (o : list (string * A)) v :
  own_get k o = Some v -> In (k, v) o.
Proof.
  induction o as [|[k' v'] o IH]; cbn; [discriminate|].
  destruct (String.eqb k k') eqn:E.
  - apply String.eqb_eq in E. intros [= ->]. left. congruence.
  - intros H. right. auto.
Qed.

Lemma own_get_key {A} k (o : list (string * A)) :
  In k (map fst o) -> exists v, own_get k o = Some v.
Proof.
  induction o as [|[k' v'] o IH]; cbn; [tauto|].
  intros [E|H].
  - subst. rewrite String.eqb_refl. eauto.
  - destruct (String.eqb k k'); eauto.
Qed.

(** Reading an own key of an object yields its string. *)
Lemma get_own_key o k :
  In k (keys o) -> exists v, own_get k o = Some v /\ get o k = VStr v.
Proof.
  intros H. destruct (own_get_key k o H) as [v Hv].
  exists v. split; [assumption|]. unfold get. now rewrite Hv.
Qed.

Lemma get_inherited o k name : get o k = VInherited name -> inherited k = true.
Proof.
  unfold get. destruct (own_get k o); [discriminate|].
  destruct (inherited k); [reflexivity | discriminate].
Qed.

End JSFacts.

(** ** Provider outcomes *)

Module ProviderFacts.

(** The three ways a call fails. *)
Lemma failed_cases o :
  Provider.failed o = true ->
  (exists e, o = Provider.Threw e) \/ o = Provider.Returned None
  \/ o = Provider.Returned (Some "").
Proof.
  destruct o as [e|[[|c s]|]]; cbn; intros H;
    [eauto | auto | discriminate | auto].
Qed.

End ProviderFacts.

(** ** The rate limiter *)

Module RateLimiterFacts.

Import RateLimiter.
Open Scope Z_scope.

(** A call that finds no entry, or an entry whose window is over, opens
    a window and is counted in it. *)
Lemma limiter_opens now req (store : gmap string entry) :
  renews now (store !! client_key req) = true ->
  chatbotRateLimiter now req store
  = (<[client_key req := Entry 1 (now + CHATBOT_WINDOW_MS)]> store, Next).
Proof.
  intros Hr. unfold chatbotRateLimiter. rewrite Hr.
  assert (He : current_entry now (store !! client_key req)
               = Entry 0 (now + CHATBOT_WINDOW_MS)).
  { unfold current_entry, renews in *.
    destruct (store !! client_key req) as [e|]; [now rewrite Hr | reflexivity]. }
  rewrite He. cbn. now rewrite insert_insert_eq.
Qed.

(** A call inside the window of an entry below the quota is counted. *)
Lemma limiter_counts now req (store : gmap string entry) e :
  store !! client_key req = Some e ->
  now <= resetAt e ->
  count e < CHATBOT_MAX_REQUESTS ->
  chatbotRateLimiter now req store
  = (<[client_key req := Entry (count e + 1) (resetAt e)]> store, Next).
Proof.
  intros Hs Hn Hc. unfold chatbotRateLimiter. rewrite Hs. cbn.
  assert (Hgt : (now >? resetAt e) = false) by lia.
  rewrite Hgt.
  assert (Hge : (count e >=? CHATBOT_MAX_REQUESTS) = false) by lia.
  now rewrite Hge.
Qed.

(** A call inside the window of an entry at the quota is rejected and
    changes nothing. *)
Lemma limiter_rejects now req (store : gmap string entry) e :
  store !! client_key req = Some e ->
  now <= resetAt e ->
  CHATBOT_MAX_REQUESTS <= count e ->
  chatbotRateLimiter now req store
  = (store,
     Rejected (Throttled 429
                 "Too many requests to chatbot. Please try again shortly."
                 true (Z.max (resetAt e - now) 0) CHATBOT_WINDOW_MS)).
Proof.
  intros Hs Hn Hc. unfold chatbotRateLimiter. rewrite Hs. cbn.
  assert (Hgt : (now >? resetAt e) = false) by lia.
  rewrite Hgt.
  assert (Hge : (count e >=? CHATBOT_MAX_REQUESTS) = true) by lia.
  now rewrite Hge.
Qed.

(** The limiter touches the entry of the calling client only. *)
Lemma limiter_frame now req (store : gmap string entry) k :
  client_key req <> k ->
  (chatbotRateLimiter now req store).1 !! k = store !! k.
Proof.
  intros Hk. unfold chatbotRateLimiter.
  destruct (renews _ _), (count _ >=? _); cbn;
    rewrite ?lookup_insert_ne; auto.
Qed.

(** The three ways a call can go. *)
Lemma limiter_cases now req (store : gmap string entry) :
  (renews now (store !! client_key req) = true
   /\ chatbotRateLimiter now req store
      = (<[client_key req := Entry 1 (now + CHATBOT_WINDOW_MS)]> store, Next))
  \/ (exists e, store !! client_key req = Some e /\ now <= resetAt e
      /\ count e < CHATBOT_MAX_REQUESTS
      /\ chatbotRateLimiter now req store
         = (<[client_key req := Entry (count e + 1) (resetAt e)]> store, Next))
  \/ (exists e, store !! client_key req = Some e /\ now <= resetAt e
      /\ CHATBOT_MAX_REQUESTS <= count e
      /\ exists body, chatbotRateLimiter now req store = (store, Rejected body)).
Proof.
  destruct (renews now (store !! client_key req)) eqn:Hr.
  - left. split; [reflexivity|]. now apply limiter_opens.
  - right. unfold renews in Hr.
    destruct (store !! client_key req) as [e|] eqn:Hs; [|discriminate].
    rewrite ?Hs in Hr. assert (now <= resetAt e) by lia.
    destruct (Z_lt_le_dec (count e) CHATBOT_MAX_REQUESTS).
    + left. exists e. split; [reflexivity|]. split; [assumption|].
      split; [assumption|]. now apply limiter_counts.
    + right. exists e. split; [reflexivity|]. split; [assumption|].
      split; [assumption|]. eexists. apply limiter_rejects; eassumption.
Qed.


Lemma bounded_empty : bounded ∅.
Proof. intros k e H. now rewrite lookup_empty in H. Qed.

Lemma bounded_insert (store : gmap string entry) k e :
  bounded store -> 0 <= count e <= CHATBOT_MAX_REQUESTS ->
  bounded (<[k := e]> store).
Proof.
  intros Hb He k' e' H.
  destruct (decide (k = k')) as [->|Hne].
  - rewrite lookup_insert_eq in H. now inversion H; subst.
  - rewrite lookup_insert_ne in H by assumption. eauto.
Qed.

Lemma limiter_bounded now req (store : gmap string entry) :
  bounded store -> bounded (chatbotRateLimiter now req store).1.
Proof.
  intros Hb.
  destruct (limiter_cases now req store)
    as [[_ ->] | [(e & Hs & _ & Hc & ->) | (e & _ & _ & _ & body & ->)]]; cbn.
  - apply bounded_insert; [assumption | cbn; unfold CHATBOT_MAX_REQUESTS; lia].
  - apply bounded_insert; [assumption | cbn]. specialize (Hb _ _ Hs). lia.
  - assumption.
Qed.

Lemma run_bounded calls : forall store : gmap string entry,
  bounded store -> bounded (run store calls).1.
Proof.
  induction calls as [|[now req] rest IH]; intros store Hb; cbn; [assumption|].
  pose proof (limiter_bounded now req store Hb) as H1.
  destruct (chatbotRateLimiter now req store) as [s1 v]. cbn in H1.
  specialize (IH s1 H1). destruct (run s1 rest) as [s2 vs]. exact IH.
Qed.


(** Inside an open window whose count leaves room for them, the calls of
    a client are all counted, whatever the other clients do. *)
Lemma run_inside_window k limit calls : forall (store : gmap string entry) c,
  store !! k = Some (Entry c limit) ->
  Forall (fun call => call.1 <= limit) calls ->
  c + calls_of k calls <= CHATBOT_MAX_REQUESTS ->
  (run store calls).1 !! k = Some (Entry (c + calls_of k calls) limit)
  /\ Forall2 (fun call v => from_key k call = true -> v = Next)
       calls (run store calls).2.
Proof.
  induction calls as [|[now req] rest IH]; intros store c Hs Hall Hroom.
  - cbn. unfold calls_of. cbn. rewrite Z.add_0_r. split; [assumption | constructor].
  - inversion Hall as [|x l Hnow Hrest]; subst. cbn in Hnow.
    unfold calls_of in *. cbn [List.filter] in Hroom |- *.
    cbn [run].
    destruct (from_key k (now, req)) eqn:Hk.
    + unfold from_key in Hk. cbn in Hk. apply String.eqb_eq in Hk.
      cbn [length] in Hroom |- *. rewrite Nat2Z.inj_succ in Hroom |- *.
      assert (Hlt : count (Entry c limit) < CHATBOT_MAX_REQUESTS) by (cbn; lia).
      rewrite <- Hk in Hs.
      rewrite (limiter_counts now req store _ Hs Hnow Hlt). cbn [count resetAt].
      destruct (IH (<[client_key req := Entry (c + 1) limit]> store) (c + 1))
        as [IH1 IH2]; [rewrite Hk; apply lookup_insert_eq | assumption | lia |].
      destruct (run _ rest) as [s2 vs]. cbn in *.
      split; [rewrite IH1; f_equal; f_equal; lia | constructor; auto].
    + assert (Hne : client_key req <> k).
      { intros E. unfold from_key in Hk. cbn in Hk. rewrite E in Hk.
        now rewrite String.eqb_refl in Hk. }
      pose proof (limiter_frame now req store k Hne) as Hf.
      destruct (chatbotRateLimiter now req store) as [s1 v]. cbn in Hf.
      destruct (IH s1 c) as [IH1 IH2]; [now rewrite Hf | assumption | assumption |].
      destruct (run s1 rest) as [s2 vs]. cbn in *.
      split; [assumption | constructor; [congruence | assumption]].
Qed.

(** C5. When a call of a client opens a window at [t0] and the client
    makes [CHATBOT_MAX_REQUESTS - 1] further calls before the window
    closes, all [CHATBOT_MAX_REQUESTS] calls pass; the next call made
    before the reset time is rejected with status 429 and a
    [retryAfterMs] between 0 and [CHATBOT_WINDOW_MS], and leaves the
    store as it is; a call made after the reset time passes again and
    starts a new entry with count 1. *)
Theorem quota_then_rejected_then_renewed
    (store : gmap string entry) (req : origin) (t0 : Z)
    (calls : list (Z * origin)) :
  let k := client_key req in
  let opened := (chatbotRateLimiter t0 req store).1 in
  let full := (run opened calls).1 in
  renews t0 (store !! k) = true ->
  Forall (fun call => call.1 <= t0 + CHATBOT_WINDOW_MS) calls ->
  calls_of k calls = CHATBOT_MAX_REQUESTS - 1 ->
  (chatbotRateLimiter t0 req store).2 = Next
  /\ Forall2 (fun call v => from_key k call = true -> v = Next)
       calls (run opened calls).2
  /\ (forall t req', client_key req' = k ->
       t0 <= t <= t0 + CHATBOT_WINDOW_MS ->
       exists retryAfterMs,
         chatbotRateLimiter t req' full
         = (full,
            Rejected (Throttled 429
                        "Too many requests to chatbot. Please try again shortly."
                        true retryAfterMs CHATBOT_WINDOW_MS))
         /\ 0 <= retryAfterMs <= CHATBOT_WINDOW_MS)
  /\ (forall t req', client_key req' = k ->
       t0 + CHATBOT_WINDOW_MS < t ->
       chatbotRateLimiter t req' full
       = (<[k := Entry 1 (t + CHATBOT_WINDOW_MS)]> full, Next)).
Proof.
  intros k opened full Hopen Hin Hn.
  pose proof (limiter_opens t0 req store Hopen) as Hfirst.
  assert (Hopened : opened !! k = Some (Entry 1 (t0 + CHATBOT_WINDOW_MS))).
  { unfold opened. rewrite Hfirst. cbn. apply lookup_insert_eq. }
  destruct (run_inside_window k (t0 + CHATBOT_WINDOW_MS) calls opened 1
              Hopened Hin) as [Hfull Hpassed].
  { rewrite Hn. lia. }
  fold full in Hfull. rewrite Hn in Hfull.
  replace (1 + (CHATBOT_MAX_REQUESTS - 1)) with CHATBOT_MAX_REQUESTS in Hfull by lia.
  split; [now rewrite Hfirst|]. split; [exact Hpassed|]. split.
  - intros t req' Hk [Hlo Hhi]. rewrite <- Hk in Hfull.
    eexists. split.
    + apply (limiter_rejects t req' full _ Hfull); cbn; lia.
    + cbn. lia.
  - intros t req' Hk Hlate. rewrite <- Hk in Hfull |- *.
    apply limiter_opens. rewrite Hfull. cbn. lia.
Qed.

Lemma quota_then_rejected_witness :
  exists retryAfterMs,
    chatbotRateLimiter 7000 Samples.client
      (run (chatbotRateLimiter 1000 Samples.client ∅).1 Samples.window_calls).1
    = ((run (chatbotRateLimiter 1000 Samples.client ∅).1 Samples.window_calls).1,
       Rejected (Throttled 429
                   "Too many requests to chatbot. Please try again shortly."
                   true retryAfterMs CHATBOT_WINDOW_MS))
    /\ 0 <= retryAfterMs <= CHATBOT_WINDOW_MS.
Proof.
  destruct (quota_then_rejected_then_renewed ∅ Samples.client 1000
              Samples.window_calls) as (_ & _ & H & _).
  - reflexivity.
  - apply (bool_decide_unpack _). vm_compute. exact I.
  - vm_compute. reflexivity.
  - apply (H 7000 Samples.client); [reflexivity | unfold CHATBOT_WINDOW_MS; lia].
Defined.

(** C10. In every store the limiter can build from the empty one, each
    count lies between 0 and [CHATBOT_MAX_REQUESTS]. A call that passes
    found the count of its entry (the stored one, or a new one with
    count 0 when the window was over) below the quota and stores that
    count plus 1 with the same reset time; a rejected call leaves the
    store, hence the count and the reset time of the entry, as they
    were. *)
Theorem store_count_within_quota :
  (forall calls k e,
      (run ∅ calls).1 !! k = Some e ->
      0 <= count e <= CHATBOT_MAX_REQUESTS)
  /\ (forall now req (store : gmap string entry),
       (chatbotRateLimiter now req store).2 = Next ->
       let e := current_entry now (store !! client_key req) in
       count e < CHATBOT_MAX_REQUESTS
       /\ (chatbotRateLimiter now req store).1 !! client_key req
          = Some (Entry (count e + 1) (resetAt e)))
  /\ (forall now req (store : gmap string entry) body,
       (chatbotRateLimiter now req store).2 = Rejected body ->
       (chatbotRateLimiter now req store).1 = store).
Proof.
  split; [|split].
  - intros calls k e. apply (run_bounded calls ∅ bounded_empty).
  - intros now req store. unfold chatbotRateLimiter. cbn zeta.
    destruct (count _ >=? _) eqn:Hge; cbn; [discriminate|].
    intros _. split; [lia | apply lookup_insert_eq].
  - intros now req store body.
    destruct (limiter_cases now req store)
      as [[_ ->] | [(e & _ & _ & _ & ->) | (e & _ & _ & _ & body' & ->)]];
      cbn; [discriminate | discriminate | reflexivity].
Qed.

Lemma store_count_witness :
  (run ∅ ((1000, Samples.client) :: Samples.window_calls)).1 !! "203.0.113.7"
  = Some (Entry 50 61000)
  /\ 0 <= 50 <= CHATBOT_MAX_REQUESTS
  /\ (chatbotRateLimiter 1000 Samples.client ∅).1 !! "203.0.113.7"
     = Some (Entry 1 61000).
Proof.
  destruct store_count_within_quota as (Hbound & Hpass & _).
  split; [vm_compute; reflexivity|]. split.
  - apply (Hbound ((1000, Samples.client) :: Samples.window_calls)
             "203.0.113.7" (Entry 50 61000)).
    vm_compute. reflexivity.
  - exact (proj2 (Hpass 1000 Samples.client ∅ eq_refl)).
Defined.

End RateLimiterFacts.

(** ** The offline chatbot responder *)

Module OfflineFacts.

Import JS JSFacts Offline.

Lemma push_if_cons c t x l : push_if c t (x :: l) = x :: push_if c t l.
Proof. now destruct c. Qed.

Lemma push_if_Forall (P : string -> Prop) c t l :
  P t -> Forall P l -> Forall P (push_if c t l).
Proof.
  intros Ht Hl. destruct c; cbn; [|assumption].
  apply Forall_app; split; [assumption | now constructor].
Qed.

(** A message that mentions a beach is answered with the beach
    paragraph first. *)
Lemma offline_beach_first message :
  includes (toLowerCase message) "beach" = true ->
  exists rest, generateOfflineChatbotResponse message = BEACH_TEXT ++ rest.
Proof.
  intros H. unfold generateOfflineChatbotResponse. cbn zeta. rewrite H.
  change (push_if true BEACH_TEXT []) with [BEACH_TEXT].
  rewrite !push_if_cons. apply join_cons.
Qed.

(** The offline answer is never empty. *)
Lemma offline_truthy message :
  truthy_str (generateOfflineChatbotResponse message) = true.
Proof.
  unfold generateOfflineChatbotResponse. cbn zeta.
  match goal with
  | |- context [match ?l with [] => _ | _ :: _ => _ end] =>
      assert (Hall : Forall (fun s => truthy_str s = true) l)
        by (repeat apply push_if_Forall; try reflexivity; constructor);
      destruct l as [|x l']
  end.
  - reflexivity.
  - inversion Hall; subst. destruct (join_cons x l') as [rest ->].
    now apply truthy_append_l.
Qed.

End OfflineFacts.

(** ** The chatbot endpoint *)

Module ChatbotFacts.

Import JS JSFacts Chatbot.

(** With every provider failing, a request that carries a message is
    answered by the offline responder. *)
Lemma chatbot_offline e now cooldown b :
  truthy (message b) = true ->
  all_fail e = true ->
  exists limited,
    (chatbot e now cooldown b).1.2
    = Replied (Ok true
                 (Offline.generateOfflineChatbotResponse (or_default (message b) ""))
                 (context_of b) (Some true) (Some limited)
                 "offline-goa-guide" now).
Proof.
  intros Hm Hfail. unfold all_fail in Hfail.
  apply andb_prop in Hfail as [Hfail Hfree].
  apply andb_prop in Hfail as [Hor Hgem].
  unfold chatbot. rewrite Hm. cbn [negb].
  assert (Hhit : (if truthy (OPENROUTER_API_KEY e)
                  then match openrouter e with
                       | Provider.Returned (Some content) =>
                           if truthy_str content then Some content else None
                       | _ => None
                       end
                  else None) = None).
  { destruct (truthy (OPENROUTER_API_KEY e)); [|reflexivity].
    destruct (ProviderFacts.failed_cases _ Hor) as [[x ->]|[->| ->]]; reflexivity. }
  cbn zeta. rewrite Hhit.
  assert (Hcatch : forall error, exists limited,
             (chatbot_catch e now 0 b error).1.2
             = Replied (Ok true
                 (Offline.generateOfflineChatbotResponse (or_default (message b) ""))
                 (context_of b) (Some true) (Some limited)
                 "offline-goa-guide" now)).
  { intros error. unfold chatbot_catch. cbn zeta.
    match goal with
    | |- context [match ?h with Some _ => _ | None => _ end] =>
        assert (Hnone : h = None)
    end.
    { match goal with |- (if ?c then _ else _) = None => destruct c end;
        [|reflexivity].
      destruct (ProviderFacts.failed_cases _ Hfree) as [[x ->]|[->| ->]]; reflexivity. }
    rewrite Hnone. eexists. reflexivity. }
  destruct (ProviderFacts.failed_cases _ Hgem) as [[x ->]|[->| ->]].
  - destruct (Hcatch x) as [limited Hc].
    destruct (chatbot_catch e now 0 b x) as [[cd resp] tr]. cbn in *. eauto.
  - destruct (Hcatch (Provider.Failure "Invalid chatbot response" None))
      as [limited Hc].
    destruct (chatbot_catch _ _ _ _ _) as [[cd resp] tr]. cbn in *. eauto.
  - destruct (Hcatch (Provider.Failure "Invalid chatbot response" None))
      as [limited Hc].
    destruct (chatbot_catch _ _ _ _ _) as [[cd resp] tr]. cbn in *. eauto.
Qed.

(** C8. A message whose lower-case form contains "beach" is answered,
    when every provider fails, with a text that contains the beach
    paragraph, with [fallback] true and the provider
    ['offline-goa-guide']. *)
Theorem beach_message_gets_beach_text e now cooldown b m :
  message b = Some m ->
  includes (toLowerCase m) "beach" = true ->
  all_fail e = true ->
  exists r,
    (chatbot e now cooldown b).1.2 = Replied r
    /\ includes (reply r) Offline.BEACH_TEXT = true
    /\ fallback r = Some true
    /\ provider r = "offline-goa-guide".
Proof.
  intros Hm Hbeach Hfail.
  assert (Ht : truthy (message b) = true).
  { rewrite Hm. destruct m; [discriminate | reflexivity]. }
  destruct (chatbot_offline e now cooldown b Ht Hfail) as [limited ->].
  eexists. split; [reflexivity|]. cbn [reply fallback provider].
  split; [|split; reflexivity].
  rewrite Hm. cbn [or_default].
  replace (if truthy_str m then m else "") with m by now destruct m.
  destruct (OfflineFacts.offline_beach_first m Hbeach) as [rest ->].
  apply includes_append.
Qed.

Lemma beach_message_witness :
  exists r,
    (chatbot Samples.chat_down 1000 0 Samples.beach_question).1.2 = Replied r
    /\ includes (reply r) Offline.BEACH_TEXT = true
    /\ fallback r = Some true
    /\ provider r = "offline-goa-guide".
Proof.
  apply (beach_message_gets_beach_text Samples.chat_down 1000 0
           Samples.beach_question "Which BEACH is quiet?");
    reflexivity.
Defined.

(** The handler answers the same way and contacts the same providers
    whatever the cooldown is when the request arrives. *)
Lemma chatbot_ignores_cooldown e now c1 c2 b :
  (chatbot e now c1 b).1.2 = (chatbot e now c2 b).1.2
  /\ (chatbot e now c1 b).2 = (chatbot e now c2 b).2.
Proof.
  unfold chatbot. destruct (truthy (message b)); cbn; auto.
Qed.

End ChatbotFacts.

(** ** The translation endpoint *)

Module TranslateFacts.

Import JS JSFacts Translate.

Lemma dictionaries_truthy :
  forallb (fun km => Dictionary.all_values_truthy (snd km))
    Dictionary.fallbackTranslations = true.
Proof. vm_compute. reflexivity. Qed.

(** Every phrase of every dictionary has a non-empty translation. *)
Lemma dictionary_value_truthy key translationMap k v :
  own_get key Dictionary.fallbackTranslations = Some translationMap ->
  own_get k translationMap = Some v ->
  truthy_str v = true.
Proof.
  intros Hm Hv. apply own_get_In in Hm, Hv.
  pose proof dictionaries_truthy as H.
  rewrite forallb_forall in H. specialize (H _ Hm). cbn in H.
  unfold Dictionary.all_values_truthy in H.
  rewrite forallb_forall in H. exact (H _ Hv).
Qed.

Section Patterns.

Variable translationPatterns : list (string * obj).

(** A word that counts as translated contributes a non-empty string. *)
Lemma translate_word_truthy key patterns translationMap word v :
  own_get key Dictionary.fallbackTranslations = Some translationMap ->
  translate_word patterns translationMap word = (v, true) ->
  truthy_str (render v) = true.
Proof.
  intros Hm. unfold translate_word.
  destruct (truthy_value _) eqn:Hhit.
  - intros [= <-]. now apply render_truthy.
  - destruct (find_key _ _) as [foundKey|] eqn:Hfind; [|discriminate].
    destruct (truthy_str foundKey); [|discriminate].
    intros [= <-]. apply List.find_some in Hfind as [Hin _].
    destruct (get_own_key _ _ Hin) as (v' & Hown & ->). cbn.
    eapply dictionary_value_truthy; eassumption.
Qed.

Lemma words_truthy key patterns translationMap words :
  own_get key Dictionary.fallbackTranslations = Some translationMap ->
  existsb snd (map (translate_word patterns translationMap) words) = true ->
  truthy_str
    (join (map (fun t => render (fst t))
             (map (translate_word patterns translationMap) words))) = true.
Proof.
  intros Hm Hany. apply join_truthy.
  apply existsb_exists in Hany as [[v flag] [Hin Hflag]].
  cbn in Hflag. subst flag.
  apply existsb_exists. exists (render v). split.
  - apply in_map_iff. exists (v, true). split; [reflexivity | assumption].
  - apply in_map_iff in Hin as (word & Hw & _).
    eapply translate_word_truthy; eassumption.
Qed.

(** The offline translation of a non-empty text that is not the name
    of an inherited member is a non-empty string. *)
Lemma offline_translate_text text fromLanguage toLanguage :
  truthy_str text = true ->
  inherited text = false ->
  exists s, offline_translate translationPatterns text fromLanguage toLanguage
            = VStr s
            /\ truthy_str s = true.
Proof.
  intros Ht Hinh. unfold offline_translate.
  destruct (own_get _ Dictionary.fallbackTranslations)
    as [translationMap|] eqn:Hm; [|eauto].
  cbn zeta. destruct (truthy_value (get translationMap text)) eqn:Hexact.
  - destruct (get translationMap text) as [s|name|] eqn:Hget.
    + eauto.
    + apply get_inherited in Hget. congruence.
    + discriminate.
  - destruct (find_key _ _) as [[|c r]|] eqn:Hfind.
    + destruct (existsb _ _) eqn:Hany; [|eauto].
      eexists. split; [reflexivity|]. eapply words_truthy; eassumption.
    + apply List.find_some in Hfind as [Hin _].
      destruct (get_own_key _ _ Hin) as (v & Hown & ->).
      exists v. split; [reflexivity|].
      eapply dictionary_value_truthy; eassumption.
    + destruct (existsb _ _) eqn:Hany; [|eauto].
      eexists. split; [reflexivity|]. eapply words_truthy; eassumption.
Qed.

(** With every provider failing, a request that carries its three
    fields is answered with the offline translation. *)
Lemma translate_offline e now cooldown b t f l :
  text b = Some t -> truthy_str t = true ->
  fromLanguage b = Some f -> truthy_str f = true ->
  toLanguage b = Some l -> truthy_str l = true ->
  all_fail e = true ->
  exists note,
    (translate translationPatterns e now cooldown b).1.2
    = Replied (Ok true t (offline_translate translationPatterns t f l) f l
                 None (Some true) (Some note)).
Proof.
  intros Ht Htt Hf Hft Hl Hlt Hfail. unfold all_fail in Hfail.
  apply andb_prop in Hfail as [Hfail Hmm].
  apply andb_prop in Hfail as [Hfail Hlt'].
  apply andb_prop in Hfail as [Hg Hor].
  assert (Hcatch : forall error, exists note,
             (translate_catch translationPatterns e now cooldown t f l error).1.2
             = Replied (Ok true t (offline_translate translationPatterns t f l)
                          f l None (Some true) (Some note))).
  { intros error. unfold translate_catch. cbn zeta.
    match goal with
    | |- context [match ?h with Some _ => _ | None => _ end] =>
        assert (Hnone : h = None)
    end.
    { destruct (truthy (OPENROUTER_API_KEY e)); [|reflexivity].
      destruct (ProviderFacts.failed_cases _ Hor) as [[x ->]|[->| ->]];
        reflexivity. }
    rewrite Hnone.
    destruct (ProviderFacts.failed_cases _ Hlt') as [[x ->]|[->| ->]];
      destruct (ProviderFacts.failed_cases _ Hmm) as [[y ->]|[->| ->]];
      eexists; reflexivity. }
  unfold translate. rewrite Ht, Hf, Hl.
  destruct t as [|tc tr]; [discriminate|].
  destruct f as [|fc fr]; [discriminate|].
  destruct l as [|lc lr]; [discriminate|].
  destruct (ProviderFacts.failed_cases _ Hg) as [[x ->]|[->| ->]].
  - destruct (Hcatch x) as [note Hc].
    destruct (translate_catch _ _ _ _ _ _ _ x) as [[cd resp] tr']. cbn in *. eauto.
  - destruct (Hcatch (Provider.Failure "No translation result from AI" None))
      as [note Hc].
    destruct (translate_catch _ _ _ _ _ _ _ _) as [[cd resp] tr']. cbn in *. eauto.
  - destruct (Hcatch (Provider.Failure "No translation result from AI" None))
      as [note Hc].
    destruct (translate_catch _ _ _ _ _ _ _ _) as [[cd resp] tr']. cbn in *. eauto.
Qed.

End Patterns.

(** C6. With every provider failing, "Hello" from English to Hindi is
    answered with the phrase of the dictionary and [fallback] true. *)
Theorem hello_english_hindi translationPatterns e now cooldown :
  all_fail e = true ->
  exists r,
    (translate translationPatterns e now cooldown Samples.hello).1.2 = Replied r
    /\ translatedText r = VStr "नमस्ते"
    /\ fallback r = Some true.
Proof.
  intros Hfail.
  destruct (translate_offline translationPatterns e now cooldown Samples.hello
              "Hello" "English" "Hindi") as [note ->];
    try reflexivity; [assumption|].
  eexists. split; [reflexivity|]. split; [|reflexivity].
  cbn [translatedText]. vm_compute. reflexivity.
Qed.

Lemma hello_english_hindi_witness :
  exists r,
    (translate [] Samples.translate_down 1000 0 Samples.hello).1.2 = Replied r
    /\ translatedText r = VStr "नमस्ते"
    /\ fallback r = Some true.
Proof.
  apply (hello_english_hindi [] Samples.translate_down 1000 0). reflexivity.
Defined.

(** The exact-match read [translationMap[text]] also finds the members an
    object literal inherits: for the text "constructor" the value put in
    [translatedText] is a function, which the JSON body does not carry. *)
Lemma inherited_name_is_not_translated translationPatterns :
  offline_translate translationPatterns "constructor" "English" "Hindi"
  = VInherited "constructor".
Proof. vm_compute. reflexivity. Qed.

(** C1, as stated, fails: a translation request that carries its text but
    names no source language is answered with status 400 although every
    provider fails. *)
Lemma text_alone_is_rejected :
  text Samples.hello_no_source = Some "Hello"
  /\ all_fail Samples.translate_down = true
  /\ (translate [] Samples.translate_down 1000 0 Samples.hello_no_source).1.2
     = Failed (Http.ErrorBody 400
                 "Missing required parameters: text, fromLanguage, toLanguage"
                 None None)
  /\ ~ exists r,
        (translate [] Samples.translate_down 1000 0 Samples.hello_no_source).1.2
        = Replied r.
Proof.
  repeat split. intros [r H]. discriminate H.
Qed.

(** C1, amended. With every provider failing, a translation request that
    carries a non-empty [text], [fromLanguage] and [toLanguage], the text
    not being the name of a member inherited from [Object.prototype], and
    a chatbot request that carries a non-empty [message], are answered
    with [success] true, [fallback] true and a non-empty text
    ([translatedText], resp. [message]). *)
Theorem fallback_reply_when_all_fail :
  (forall translationPatterns e now cooldown b t f l,
      text b = Some t -> truthy_str t = true ->
      fromLanguage b = Some f -> truthy_str f = true ->
      toLanguage b = Some l -> truthy_str l = true ->
      inherited t = false ->
      all_fail e = true ->
      exists r,
        (translate translationPatterns e now cooldown b).1.2 = Replied r
        /\ success r = true /\ fallback r = Some true /\ has_text r = true)
  /\ (forall e now cooldown b,
       truthy (Chatbot.message b) = true ->
       Chatbot.all_fail e = true ->
       exists r,
         (Chatbot.chatbot e now cooldown b).1.2 = Chatbot.Replied r
         /\ Chatbot.success r = true /\ Chatbot.fallback r = Some true
         /\ truthy_str (Chatbot.reply r) = true).
Proof.
  split.
  - intros translationPatterns e now cooldown b t f l Ht Htt Hf Hft Hl Hlt Hinh Hfail.
    destruct (translate_offline translationPatterns e now cooldown b t f l)
      as [note ->]; try assumption.
    destruct (offline_translate_text translationPatterns t f l Htt Hinh)
      as (s & Hs & Hst).
    eexists. split; [reflexivity|]. repeat split.
    unfold has_text. cbn [translatedText]. now rewrite Hs.
  - intros e now cooldown b Hm Hfail.
    destruct (ChatbotFacts.chatbot_offline e now cooldown b Hm Hfail)
      as [limited ->].
    eexists. split; [reflexivity|]. repeat split.
    apply OfflineFacts.offline_truthy.
Qed.

Lemma fallback_reply_witness :
  (exists r,
      (translate [] Samples.translate_down 1000 0 Samples.hello).1.2 = Replied r
      /\ success r = true /\ fallback r = Some true /\ has_text r = true)
  /\ (exists r,
       (Chatbot.chatbot Samples.chat_down 1000 0 Samples.beach_question).1.2
       = Chatbot.Replied r
       /\ Chatbot.success r = true /\ Chatbot.fallback r = Some true
       /\ truthy_str (Chatbot.reply r) = true).
Proof.
  destruct fallback_reply_when_all_fail as [Htr Hch]. split.
  - apply (Htr [] Samples.translate_down 1000%Z 0%Z Samples.hello
             "Hello" "English" "Hindi"); reflexivity.
  - apply (Hch Samples.chat_down 1000%Z 0%Z Samples.beach_question); reflexivity.
Defined.

End TranslateFacts.

(** ** The chatbot route *)

Module AppFacts.

Import App.
Open Scope Z_scope.

(** The route answers every request with the reply of the handler and
    never touches the store of the limiter. *)
Lemma route_is_the_handler st rq :
  exists cd resp contacted,
    Chatbot.chatbot (env rq) (now rq) (chatbotProviderCooldownUntil st) (body rq)
    = (cd, resp, contacted)
    /\ dispatch chatbot_route st rq
       = (State (chatbotRateLimitStore st) cd, Some (resp, contacted)).
Proof.
  unfold chatbot_route, dispatch, chatbot_handler.
  destruct (Chatbot.chatbot _ _ _ _) as [[cd resp] contacted].
  exists cd, resp, contacted. split; reflexivity.
Qed.

Lemma catch_replies e now cooldown b error :
  exists r, (Chatbot.chatbot_catch e now cooldown b error).1.2 = Chatbot.Replied r.
Proof.
  unfold Chatbot.chatbot_catch. cbn zeta.
  match goal with
  | |- context [match ?h with Some _ => _ | None => _ end] => destruct h
  end; eexists; reflexivity.
Qed.

(** The handler never answers with the body of the limiter. *)
Lemma handler_never_throttles e now cooldown b t :
  (Chatbot.chatbot e now cooldown b).1.2 <> Chatbot.Throttled t.
Proof.
  unfold Chatbot.chatbot.
  destruct (negb _); [discriminate|]. cbn zeta.
  match goal with
  | |- context [match ?h with Some _ => _ | None => _ end] => destruct h
  end; [discriminate|].
  destruct (Chatbot.gemini e) as [error|[[|c s]|]]; try discriminate;
    match goal with
    | |- context [Chatbot.chatbot_catch ?e ?n ?c ?b ?x] =>
        destruct (catch_replies e n c b x) as [r Hr];
        destruct (Chatbot.chatbot_catch e n c b x) as [[cd resp] tr]
    end; cbn in *; subst; discriminate.
Qed.

(** C2, on the code. 51 requests of one client arrive within 5.1
    seconds, one window of the limiter. Each of them, the 51st included,
    is answered with status 200 after Gemini has been contacted, and the
    store of the limiter is still empty afterwards: the route does not
    run [chatbotRateLimiter]. *)
Theorem burst_reaches_the_provider :
  length Samples.burst = 51%nat
  /\ Forall (fun rq => 1000 <= now rq <= 1000 + RateLimiter.CHATBOT_WINDOW_MS)
       Samples.burst
  /\ forallb served_by_provider (serve initial Samples.burst).2 = true
  /\ nth 50 (serve initial Samples.burst).2 None
     = Some (Chatbot.Replied
               (Chatbot.Ok true "Baga and Palolem are lovely." "travel"
                  None None "gemini-1.5-flash" 6000),
             ["gemini"])
  /\ chatbotRateLimitStore (serve initial Samples.burst).1 = ∅.
Proof.
  split; [reflexivity|]. split.
  { apply (bool_decide_unpack _). vm_compute. exact I. }
  split; [vm_compute; reflexivity|].
  split; vm_compute; reflexivity.
Qed.

(** C3, on the code. Gemini answers a first request with status 429 at
    time 1000, which sets the cooldown to 2000. A second request arrives
    at 1200, before the cooldown is over: the handler sets the cooldown
    back to 0 and contacts Gemini. *)
Theorem request_during_cooldown_contacts_gemini :
  let st1 := (dispatch chatbot_route initial Samples.first_request).1 in
  chatbotProviderCooldownUntil st1 = 2000
  /\ now Samples.second_request < chatbotProviderCooldownUntil st1
  /\ dispatch chatbot_route st1 Samples.second_request
     = (State ∅ 0,
        Some (Chatbot.Replied
                (Chatbot.Ok true "Baga and Palolem are lovely." "travel"
                   None None "gemini-1.5-flash" 1200),
              ["gemini"])).
Proof.
  cbn zeta. split; [vm_compute; reflexivity|].
  split; vm_compute; reflexivity.
Qed.

End AppFacts.

(** ** Place discovery *)

Module PlacesFacts.

Import JS Places.

Lemma insert_sorted_Forall (P : place -> Prop) cmp x l :
  P x -> Forall P l -> Forall P (insert_sorted cmp x l).
Proof.
  intros Hx Hl. induction Hl as [|y r Hy Hr IH]; cbn.
  - now constructor.
  - destruct (Qle_bool (cmp x y) 0); repeat constructor; assumption.
Qed.

Lemma sort_Forall (P : place -> Prop) cmp l :
  Forall P l -> Forall P (sort cmp l).
Proof.
  unfold sort. induction 1 as [|x l Hx Hl IH]; cbn; [constructor|].
  now apply insert_sorted_Forall.
Qed.

Lemma insert_sorted_length cmp x l :
  length (insert_sorted cmp x l) = S (length l).
Proof.
  induction l as [|y r IH]; cbn; [reflexivity|].
  destruct (Qle_bool (cmp x y) 0); cbn; congruence.
Qed.

Lemma closer_trans a b c : closer a b -> closer b c -> closer a c.
Proof. unfold closer. apply Qle_trans. Qed.

Lemma insert_sorted_sorted x l :
  StronglySorted closer l ->
  StronglySorted closer (insert_sorted by_distance x l).
Proof.
  induction 1 as [|y r Hr IH Hy]; cbn.
  - repeat constructor.
  - destruct (Qle_bool (by_distance x y) 0) eqn:Hc.
    + apply Qle_bool_iff in Hc. unfold by_distance in Hc.
      assert (Hxy : closer x y) by (unfold closer; lra).
      constructor; [now constructor|].
      constructor; [assumption|].
      eapply List.Forall_impl; [|exact Hy]. intros z Hz.
      eapply closer_trans; eassumption.
    + assert (Hyx : closer y x).
      { unfold closer. destruct (Qlt_le_dec (distance y) (distance x)) as [H|H].
        - now apply Qlt_le_weak.
        - assert (Qle_bool (by_distance x y) 0 = true); [|congruence].
          apply Qle_bool_iff. unfold by_distance. lra. }
      constructor; [assumption|].
      now apply insert_sorted_Forall.
Qed.

(** The sort puts the places in ascending order of distance. *)
Lemma sort_sorted l : StronglySorted closer (sort by_distance l).
Proof.
  unfold sort. induction l as [|x l IH]; cbn; [constructor|].
  now apply insert_sorted_sorted.
Qed.

Lemma firstn_Forall {A} (P : A -> Prop) n l :
  Forall P l -> Forall P (firstn n l).
Proof.
  intros H. revert n. induction H as [|x l Hx Hl IH]; intros [|n]; cbn;
    constructor; auto.
Qed.

Lemma firstn_sorted {A} (R : A -> A -> Prop) n l :
  StronglySorted R l -> StronglySorted R (firstn n l).
Proof.
  intros H. revert n. induction H as [|x l Hl IH Hx]; intros [|n]; cbn;
    constructor; auto using firstn_Forall.
Qed.

Section Distance.

Variable haversine : Q -> Q -> Q -> Q -> Q.

(** The list built by lines 810-853. *)
Lemma process_spec latitude longitude radius_m elements :
  let places := process haversine latitude longitude radius_m elements in
  Forall (fun p => (distance p <= radius_m / 1000)%Q) places
  /\ StronglySorted closer places
  /\ (length places <= 50)%nat.
Proof.
  unfold process. cbn zeta. split; [|split].
  - apply firstn_Forall, sort_Forall.
    apply List.Forall_forall. intros p Hp.
    apply filter_In in Hp as [_ Hp]. now apply Qle_bool_iff.
  - apply firstn_sorted, sort_sorted.
  - apply firstn_le_length.
Qed.

(** C4, amended. In every successful reply, each place lies within the
    search radius in kilometres, [searchRadius / 1000], where the
    search radius is the requested radius when it is present and not
    0, and 5000 otherwise; the places are in ascending order of
    distance; there are at most 50 of them, and [total] is their
    number. *)
Theorem found_places_within_radius_sorted_capped
    overpass b places total contacted :
  nearby haversine overpass b = (Found places total, contacted) ->
  Forall (fun p => (distance p <= searchRadius b / 1000)%Q) places
  /\ StronglySorted closer places
  /\ (length places <= 50)%nat
  /\ total = length places.
Proof.
  unfold nearby.
  destruct (negb _ || negb _); [discriminate|].
  destruct (query overpass overpassUrls None []) as [[response lastError] c].
  destruct response as [[elements|]|]; [| |discriminate].
  - intros [= <- <- _].
    destruct (process_spec (default 0%Q (latitude b)) (default 0%Q (longitude b))
                (searchRadius b) elements) as (H1 & H2 & H3).
    split; [assumption|]. split; [assumption|]. split; [assumption | reflexivity].
  - intros [= <- <- _].
    split; [constructor|]. split; [constructor|]. split; [cbn; lia | reflexivity].
Qed.

(** C9. A request whose latitude or longitude is 0 is answered with
    status 400 and the missing-parameters error, and no server is
    contacted. *)
Theorem zero_coordinate_is_rejected overpass b :
  (exists q, latitude b = Some q /\ (q == 0)%Q)
  \/ (exists q, longitude b = Some q /\ (q == 0)%Q) ->
  nearby haversine overpass b
  = (Failed (Http.ErrorBody 400
               "Missing required parameters: latitude, longitude" None None),
     []).
Proof.
  intros H. unfold nearby.
  assert (Hfalsy : negb (truthy_onum (latitude b))
                   || negb (truthy_onum (longitude b)) = true).
  { destruct H as [(q & -> & Hq)|(q & -> & Hq)]; cbn; unfold truthy_num;
      apply Qeq_bool_iff in Hq; rewrite Hq; cbn;
      [reflexivity | apply orb_true_r]. }
  now rewrite Hfalsy.
Qed.


End Distance.

(** C4, as stated, fails: a request with [radius: 0] is searched with
    the default radius, and the cafe 1.1 km away is returned although
    the requested radius divided by 1000 is 0. *)
Lemma radius_zero_returns_a_place_beyond_it :
  radius Samples.radius_zero = Some 0%Q
  /\ exists p,
      (nearby Samples.sample_haversine Samples.first_answers
         Samples.radius_zero).1 = Found [p] 1
      /\ (distance p == 11 # 10)%Q
      /\ ~ (distance p <= 0 / 1000)%Q.
Proof.
  split; [reflexivity|]. eexists. split; [vm_compute; reflexivity|].
  split; [reflexivity|]. cbn. intros H. now apply Qle_bool_iff in H.
Qed.

Lemma found_places_witness :
  exists p,
    (nearby Samples.sample_haversine Samples.first_answers Samples.around_goa).1
    = Found [p] 1
    /\ Forall (fun p => (distance p <= searchRadius Samples.around_goa / 1000)%Q) [p]
    /\ StronglySorted closer [p]
    /\ (length [p] <= 50)%nat.
Proof.
  eexists. split; [vm_compute; reflexivity|].
  destruct (found_places_within_radius_sorted_capped Samples.sample_haversine
              Samples.first_answers Samples.around_goa _ _ _ eq_refl)
    as (H1 & H2 & H3 & _).
  split; [exact H1|]. split; [exact H2 | exact H3].
Defined.

Lemma zero_coordinate_witness :
  nearby Samples.sample_haversine Samples.first_answers Samples.on_equator
  = (Failed (Http.ErrorBody 400
               "Missing required parameters: latitude, longitude" None None),
     []).
Proof.
  apply zero_coordinate_is_rejected.
  left. exists 0%Q. split; reflexivity.
Defined.


End PlacesFacts.

(** ** More on the rate limiter *)

Module RateLimiterMore.

Import RateLimiter Verdicts RateLimiterFacts.
Open Scope Z_scope.

(** The limiter reads and writes the entry of the calling client only. *)
Lemma limiter_local now req (s1 s2 : gmap string entry) :
  s1 !! client_key req = s2 !! client_key req ->
  (chatbotRateLimiter now req s1).2 = (chatbotRateLimiter now req s2).2
  /\ (chatbotRateLimiter now req s1).1 !! client_key req
     = (chatbotRateLimiter now req s2).1 !! client_key req.
Proof.
  intros H. unfold chatbotRateLimiter. cbn zeta. rewrite H.
  destruct (count _ >=? _); cbn; split; try reflexivity.
  - destruct (renews _ _); rewrite ?lookup_insert_eq; auto.
  - now rewrite !lookup_insert_eq.
Qed.

(** X2. The verdicts a client gets, and the entry it ends with, depend on
    its own entry and its own calls only: the calls of the other clients
    can be left out of the sequence. *)
Theorem clients_are_isolated key calls : forall (s1 s2 : gmap string entry),
  s1 !! key = s2 !! key ->
  (run s1 calls).1 !! key = (run s2 (List.filter (from_key key) calls)).1 !! key
  /\ verdicts_of key calls (run s1 calls).2
     = (run s2 (List.filter (from_key key) calls)).2.
Proof.
  induction calls as [|[now req] rest IH]; intros s1 s2 Hs.
  - cbn. auto.
  - cbn [List.filter run]. destruct (from_key key (now, req)) eqn:Hk.
    + pose proof Hk as Hk'. unfold from_key in Hk'. cbn in Hk'.
      apply String.eqb_eq in Hk'. rewrite <- Hk' in Hs.
      destruct (limiter_local now req s1 s2 Hs) as [Hv Hl].
      cbn [run].
      destruct (chatbotRateLimiter now req s1) as [s1' v1].
      destruct (chatbotRateLimiter now req s2) as [s2' v2]. cbn in Hv, Hl. subst v2.
      rewrite Hk' in Hl. destruct (IH s1' s2' Hl) as [IH1 IH2].
      destruct (run s1' rest) as [s1'' vs1].
      destruct (run s2' _) as [s2'' vs2]. cbn in *.
      split; [assumption|].
      unfold verdicts_of in *. cbn. rewrite Hk. cbn. now f_equal.
    + assert (Hne : client_key req <> key).
      { intros E. unfold from_key in Hk. cbn in Hk. rewrite E in Hk.
        now rewrite String.eqb_refl in Hk. }
      pose proof (limiter_frame now req s1 key Hne) as Hf.
      destruct (chatbotRateLimiter now req s1) as [s1' v1]. cbn in Hf.
      destruct (IH s1' s2) as [IH1 IH2]; [congruence|].
      destruct (run s1' rest) as [s1'' vs1]. cbn in *.
      split; [assumption|].
      unfold verdicts_of in *. cbn. rewrite Hk. assumption.
Qed.

Lemma clients_are_isolated_witness :
  verdicts_of "203.0.113.7" Samples.window_calls (run ∅ Samples.window_calls).2
  = (run ∅ (List.filter (from_key "203.0.113.7") Samples.window_calls)).2.
Proof.
  apply (clients_are_isolated "203.0.113.7" Samples.window_calls ∅ ∅). reflexivity.
Defined.

(** Inside a window, the calls of a client pass until the quota is
    reached and are rejected from then on. *)
Lemma run_same_window key limit calls : forall (store : gmap string entry) c,
  store !! key = Some (Entry c limit) ->
  0 <= c <= CHATBOT_MAX_REQUESTS ->
  Forall (fun call => call.1 <= limit) calls ->
  (run store calls).1 !! key
  = Some (Entry (Z.min (c + calls_of key calls) CHATBOT_MAX_REQUESTS) limit)
  /\ passes_of key calls (run store calls).2
     = Z.min (calls_of key calls) (CHATBOT_MAX_REQUESTS - c).
Proof.
  induction calls as [|[now req] rest IH]; intros store c Hs Hc Hall.
  - cbn. unfold calls_of, passes_of. cbn. split; [|lia].
    rewrite Hs. f_equal. f_equal. lia.
  - inversion Hall as [|x l Hnow Hrest]; subst. cbn in Hnow.
    cbn [run]. unfold calls_of, passes_of, verdicts_of in *.
    destruct (from_key key (now, req)) eqn:Hk.
    + pose proof Hk as Hk'. unfold from_key in Hk'. cbn in Hk'.
      apply String.eqb_eq in Hk'. rewrite <- Hk' in Hs.
      destruct (Z_lt_le_dec c CHATBOT_MAX_REQUESTS) as [Hlt|Hge].
      * rewrite (limiter_counts now req store _ Hs Hnow Hlt). cbn [count resetAt].
        destruct (IH (<[client_key req := Entry (c + 1) limit]> store) (c + 1))
          as [IH1 IH2]; [rewrite Hk'; apply lookup_insert_eq | lia | assumption |].
        destruct (run _ rest) as [s2 vs]. cbn [fst snd] in *.
        cbn [List.filter combine fst]. rewrite ?Hk. cbn [fst snd map List.filter passed length].
        rewrite !Nat2Z.inj_succ. split; [rewrite IH1; f_equal; f_equal; lia | ]. lia.
      * rewrite (limiter_rejects now req store _ Hs Hnow Hge).
        rewrite Hk' in Hs.
        destruct (IH store c) as [IH1 IH2]; [assumption | lia | assumption |].
        destruct (run store rest) as [s2 vs]. cbn [fst snd] in *.
        cbn [List.filter combine fst]. rewrite ?Hk. cbn [fst snd map List.filter passed length].
        rewrite !Nat2Z.inj_succ. cbn [count] in Hge.
        split; [rewrite IH1; f_equal; f_equal; lia | lia].
    + assert (Hne : client_key req <> key).
      { intros E. unfold from_key in Hk. cbn in Hk. rewrite E in Hk.
        now rewrite String.eqb_refl in Hk. }
      pose proof (limiter_frame now req store key Hne) as Hf.
      destruct (chatbotRateLimiter now req store) as [s1 v]. cbn in Hf.
      destruct (IH s1 c) as [IH1 IH2]; [congruence | lia | assumption |].
      destruct (run s1 rest) as [s2 vs]. cbn [fst snd] in *.
      cbn [List.filter combine fst]. rewrite ?Hk. split; assumption.
Qed.

(** X1. From the call that opens a window until its reset time, a client
    is let through [CHATBOT_MAX_REQUESTS] times at most: of its [n] further
    calls in the window, [min n (CHATBOT_MAX_REQUESTS - 1)] pass, whatever
    their number and whatever the other clients do. *)
Theorem window_lets_quota_through
    (store : gmap string entry) (req : origin) (t0 : Z)
    (calls : list (Z * origin)) :
  let k := client_key req in
  let opened := (chatbotRateLimiter t0 req store).1 in
  renews t0 (store !! k) = true ->
  Forall (fun call => call.1 <= t0 + CHATBOT_WINDOW_MS) calls ->
  (chatbotRateLimiter t0 req store).2 = Next
  /\ passes_of k calls (run opened calls).2
     = Z.min (calls_of k calls) (CHATBOT_MAX_REQUESTS - 1)
  /\ 1 + passes_of k calls (run opened calls).2 <= CHATBOT_MAX_REQUESTS.
Proof.
  intros k opened Hopen Hin.
  pose proof (limiter_opens t0 req store Hopen) as Hfirst.
  assert (Hopened : opened !! k = Some (Entry 1 (t0 + CHATBOT_WINDOW_MS))).
  { unfold opened. rewrite Hfirst. cbn. apply lookup_insert_eq. }
  destruct (run_same_window k (t0 + CHATBOT_WINDOW_MS) calls opened 1 Hopened)
    as [_ Hp]; [unfold CHATBOT_MAX_REQUESTS; lia | assumption |].
  split; [now rewrite Hfirst|]. split; [exact Hp|]. rewrite Hp. lia.
Qed.

Lemma window_lets_quota_through_witness :
  calls_of "203.0.113.7" Cases.crowded_window = 98
  /\ passes_of "203.0.113.7" Cases.crowded_window
       (run (chatbotRateLimiter 1000 Samples.client ∅).1 Cases.crowded_window).2
     = 49.
Proof.
  split; [vm_compute; reflexivity|].
  destruct (window_lets_quota_through ∅ Samples.client 1000 Cases.crowded_window)
    as (_ & H & _).
  - reflexivity.
  - apply (bool_decide_unpack _). vm_compute. exact I.
  - exact H.
Defined.

(** X3. A rejected call leaves the store as it is and tells the time left
    until the reset: with [retryAfterMs] from the body, every call of the
    client up to [now + retryAfterMs] included is rejected again, with the
    time that is left then, and every later call passes. *)
Theorem retry_after_marks_the_reset now req (store store' : gmap string entry) body :
  chatbotRateLimiter now req store = (store', Rejected body) ->
  store' = store
  /\ th_status body = 429 /\ th_rateLimited body = true
  /\ th_windowMs body = CHATBOT_WINDOW_MS
  /\ 0 <= th_retryAfterMs body
  /\ (forall later, now <= later <= now + th_retryAfterMs body ->
      exists body',
        chatbotRateLimiter later req store' = (store', Rejected body')
        /\ th_retryAfterMs body' = now + th_retryAfterMs body - later)
  /\ (forall later, now + th_retryAfterMs body < later ->
      (chatbotRateLimiter later req store').2 = Next).
Proof.
  intros H.
  destruct (limiter_cases now req store)
    as [[_ E] | [(e & _ & _ & _ & E) | (e & Hs & Hnow & Hfull & _)]];
    try (rewrite E in H; discriminate).
  rewrite (limiter_rejects now req store e Hs Hnow Hfull) in H.
  injection H as <- <-. cbn.
  replace (Z.max (resetAt e - now) 0) with (resetAt e - now) by lia.
  split; [reflexivity|]. split; [reflexivity|]. split; [reflexivity|].
  split; [reflexivity|]. split; [lia|]. split.
  - intros later Hl. eexists. split.
    + apply (limiter_rejects later req store e Hs); [lia | assumption].
    + cbn. lia.
  - intros later Hl. rewrite limiter_opens; [reflexivity|].
    rewrite Hs. cbn. lia.
Qed.

Lemma retry_after_witness :
  (chatbotRateLimiter 61000 Samples.client Cases.used_up).2
  = Rejected (Throttled 429
                "Too many requests to chatbot. Please try again shortly."
                true 0 CHATBOT_WINDOW_MS)
  /\ (chatbotRateLimiter 61001 Samples.client Cases.used_up).2 = Next.
Proof.
  assert (H : chatbotRateLimiter 7000 Samples.client Cases.used_up
              = (Cases.used_up,
                 Rejected (Throttled 429
                   "Too many requests to chatbot. Please try again shortly."
                   true 54000 CHATBOT_WINDOW_MS)))
    by (vm_compute; reflexivity).
  destruct (retry_after_marks_the_reset _ _ _ _ _ H) as (_ & _ & _ & _ & _ & Hin & Hout).
  split.
  - destruct (Hin 61000) as (body' & Hb & Hr); [cbn; lia|].
    vm_compute. reflexivity.
  - apply (Hout 61001). cbn. lia.
Defined.

Lemma limiter_keeps_entries now req (store : gmap string entry) k :
  is_Some (store !! k) -> is_Some ((chatbotRateLimiter now req store).1 !! k).
Proof.
  intros Hk.
  destruct (decide (client_key req = k)) as [<-|Hne].
  - destruct (limiter_cases now req store)
      as [[_ ->] | [(e & _ & _ & _ & ->) | (e & _ & _ & _ & body & ->)]]; cbn;
      rewrite ?lookup_insert_eq; eauto.
  - now rewrite limiter_frame.
Qed.

Lemma limiter_records_caller now req (store : gmap string entry) :
  is_Some ((chatbotRateLimiter now req store).1 !! client_key req).
Proof.
  destruct (limiter_cases now req store)
    as [[_ ->] | [(e & _ & _ & _ & ->) | (e & Hs & _ & _ & body & ->)]]; cbn;
    rewrite ?lookup_insert_eq; eauto.
Qed.

(** X4. The limiter never removes an entry: after any sequence of calls
    every client that had an entry still has one, and so has every client
    that called, passed or rejected. *)
Theorem entries_are_never_dropped calls : forall (store : gmap string entry),
  (forall k, is_Some (store !! k) -> is_Some ((run store calls).1 !! k))
  /\ (forall call, In call calls ->
      is_Some ((run store calls).1 !! client_key call.2)).
Proof.
  induction calls as [|[now req] rest IH]; intros store.
  - cbn. split; [auto | tauto].
  - cbn [run].
    pose proof (limiter_keeps_entries now req store) as Hkeep.
    pose proof (limiter_records_caller now req store) as Hcaller.
    destruct (chatbotRateLimiter now req store) as [s1 v]. cbn in Hkeep, Hcaller.
    destruct (IH s1) as [IH1 IH2].
    destruct (run s1 rest) as [s2 vs]. cbn in *.
    split; [auto|]. intros call [<-|Hin]; cbn; auto.
Qed.

Lemma entries_are_never_dropped_witness :
  is_Some ((run ∅ Samples.window_calls).1 !! "198.51.100.4").
Proof.
  destruct (entries_are_never_dropped Samples.window_calls ∅) as [_ H].
  apply (H (1500, Samples.other_client)). left. reflexivity.
Defined.

End RateLimiterMore.

(** ** Provider outcomes, continued *)

Module ChainFacts.

Import JS Chain.

Lemma answered_cases o :
  (exists c, o = Provider.Returned (Some c) /\ truthy_str c = true
             /\ answered o = Some c)
  \/ (Provider.failed o = true /\ answered o = None).
Proof.
  destruct o as [e|[[|a s]|]]; cbn; eauto.
Qed.

Lemma answered_failed o : answered o = None <-> Provider.failed o = true.
Proof.
  destruct o as [e|[[|a s]|]]; cbn; split; intros H; try reflexivity; discriminate.
Qed.

End ChainFacts.

(** ** More on the chatbot endpoint *)

Module ChatbotMore.

Import JS Chatbot Chain ChainFacts.












End ChatbotMore.

(** ** Substrings *)

Module SubstringFacts.

Import JS JSFacts.

Lemma append_cons c s t : String c s ++ t = String c (s ++ t).
Proof. reflexivity. Qed.

Lemma append_assoc s t u : (s ++ t) ++ u = s ++ (t ++ u).
Proof.
  induction s as [|c s IH]; [reflexivity|].
  rewrite !append_cons. now f_equal.
Qed.

Lemma prefix_spec sub s :
  String.prefix sub s = true <-> exists q, s = sub ++ q.
Proof.
  revert s. induction sub as [|c sub IH]; intros s.
  - split; [intros _; exists s; reflexivity | intros _; now destruct s].
  - destruct s as [|d s]; cbn.
    + split; [discriminate | intros [q E]; discriminate E].
    + destruct (ascii_dec c d) as [->|Hne].
      * rewrite IH. split; intros [q E]; exists q.
        -- rewrite append_cons. now f_equal.
        -- rewrite append_cons in E. now injection E.
      * split; [discriminate|]. intros [q E]. rewrite append_cons in E.
        injection E as E1 _. congruence.
Qed.

(** [includes] holds exactly of the strings that contain [sub]. *)
Lemma includes_spec s sub :
  includes s sub = true <-> exists p q, s = p ++ sub ++ q.
Proof.
  induction s as [|c s IH].
  - cbn [includes]. rewrite orb_false_r, prefix_spec. split.
    + intros [q E]. exists "", q. exact E.
    + intros (p & q & E). destruct p as [|d p]; [eauto|].
      rewrite append_cons in E. discriminate E.
  - cbn [includes]. rewrite orb_true_iff, prefix_spec, IH. split.
    + intros [[q E]|(p & q & E)].
      * exists "", q. exact E.
      * exists (String c p), q. rewrite append_cons. now f_equal.
    + intros (p & q & E). destruct p as [|d p].
      * left. exists q. exact E.
      * right. rewrite append_cons in E. injection E as _ E. eauto.
Qed.

(** Containment is transitive. *)
Lemma includes_trans s a b :
  includes s a = true -> includes a b = true -> includes s b = true.
Proof.
  rewrite !includes_spec. intros (p & q & ->) (p' & q' & ->).
  exists (p ++ p'), (q' ++ q). now rewrite !append_assoc.
Qed.

Lemma includes_append_l s t sub :
  includes s sub = true -> includes (s ++ t) sub = true.
Proof.
  rewrite !includes_spec. intros (p & q & ->).
  exists p, (q ++ t). now rewrite !append_assoc.
Qed.

Lemma includes_append_r s t sub :
  includes t sub = true -> includes (s ++ t) sub = true.
Proof.
  rewrite !includes_spec. intros (p & q & ->).
  exists (s ++ p), q. now rewrite !append_assoc.
Qed.

Lemma append_nil_r s : s ++ "" = s.
Proof.
  induction s as [|c s IH]; [reflexivity|]. rewrite append_cons. now f_equal.
Qed.

Lemma includes_refl s : includes s s = true.
Proof.
  apply includes_spec. exists "", "". now rewrite append_nil_r.
Qed.

(** Every element of a list is contained in its [join]. *)
Lemma includes_join x l : In x l -> includes (join l) x = true.
Proof.
  unfold join. induction l as [|y l IH]; [intros []|].
  intros [->|Hin].
  - destruct l as [|z l]; cbn [String.concat].
    + apply includes_refl.
    + apply includes_append_l, includes_refl.
  - destruct l as [|z l]; [destruct Hin|]. cbn [String.concat].
    apply includes_append_r, includes_append_r. auto.
Qed.

End SubstringFacts.

(** ** More on the offline chatbot responder *)

Module OfflineMore.

Import JS JSFacts SubstringFacts Offline Topics.

Lemma push_if_new t l : In t (push_if true t l).
Proof. cbn. apply in_or_app. right. now left. Qed.

Lemma push_if_old c t x l : In x l -> In x (push_if c t l).
Proof. destruct c; cbn; [|auto]. intros H. apply in_or_app. now left. Qed.

Lemma push_if_nil c t l : push_if c t l = [] <-> c = false /\ l = [].
Proof.
  destruct c; cbn.
  - split; [|intros [E _]; discriminate E].
    intros E. apply app_eq_nil in E as [_ E]. discriminate E.
  - tauto.
Qed.

(** The answer as the [join] of the paragraphs of the topics the message
    mentions, in the order of the tests. *)
Lemma answer_is_join message :
  exists canned,
    generateOfflineChatbotResponse message
    = join (match canned with [] => [GENERIC_TEXT] | _ :: _ => canned end)
    /\ (forall keywords text, In (keywords, text) topics ->
        mentions message keywords = true -> In text canned)
    /\ (canned = [] <->
        forall keywords text, In (keywords, text) topics ->
                              mentions message keywords = false)
    /\ Forall (fun s => In s (map snd topics)) canned.
Proof.
  unfold generateOfflineChatbotResponse. cbn zeta.
  set (lower := toLowerCase message).
  eexists. split; [reflexivity|]. split; [|split].
  - intros keywords text Hin Hm. unfold mentions in Hm. fold lower in Hm.
    cbn in Hin.
    repeat (destruct Hin as [Hin|Hin];
            [injection Hin as <- <-; cbn [existsb] in Hm;
             rewrite ?orb_false_r, <- ?orb_assoc in Hm;
             rewrite <- ?orb_assoc; rewrite Hm;
             repeat first [apply push_if_new | apply push_if_old]|]).
    destruct Hin.
  - rewrite !push_if_nil. unfold mentions. fold lower. cbn [topics]. split.
    + intros (H6 & H5 & H4 & H3 & H2 & H1 & _) keywords text Hin. cbn in Hin.
      repeat (destruct Hin as [Hin|Hin];
              [injection Hin as <- <-; cbn [existsb];
               rewrite ?orb_false_r, ?orb_assoc; assumption|]).
      destruct Hin.
    + intros H.
      pose proof (H _ _ (or_introl eq_refl)) as H1.
      pose proof (H _ _ (or_intror (or_introl eq_refl))) as H2.
      pose proof (H _ _ (or_intror (or_intror (or_introl eq_refl)))) as H3.
      pose proof (H _ _ (or_intror (or_intror (or_intror (or_introl eq_refl))))) as H4.
      pose proof (H _ _ (or_intror (or_intror (or_intror (or_intror
                           (or_introl eq_refl)))))) as H5.
      pose proof (H _ _ (or_intror (or_intror (or_intror (or_intror
                           (or_intror (or_introl eq_refl))))))) as H6.
      cbn [existsb] in H1, H2, H3, H4, H5, H6.
      rewrite ?orb_false_r in H1, H2, H3, H4, H5, H6.
      rewrite <- ?orb_assoc.
      repeat split; (assumption || reflexivity).
  - repeat apply OfflineFacts.push_if_Forall; try constructor; cbn; tauto.
Qed.

(** X9. For each of the six topics, a message whose lower-case form
    contains one of the keywords of the topic is answered with a text that
    contains the paragraph of the topic. *)
Theorem every_mentioned_topic_is_answered message keywords text :
  In (keywords, text) topics ->
  mentions message keywords = true ->
  includes (generateOfflineChatbotResponse message) text = true.
Proof.
  intros Hin Hm.
  destruct (answer_is_join message) as (canned & -> & Hall & _ & _).
  specialize (Hall keywords text Hin Hm).
  destruct canned as [|x l]; [destruct Hall|].
  now apply includes_join.
Qed.

Lemma every_mentioned_topic_witness :
  includes (generateOfflineChatbotResponse "Is a TAXI cheap?") TRANSPORT_TEXT = true.
Proof.
  apply (every_mentioned_topic_is_answered "Is a TAXI cheap?"
           ["transport"; "taxi"; "cab"; "scooter"]).
  - cbn. tauto.
  - reflexivity.
Defined.

(** X10. Since "weather" contains "eat", a message that mentions the
    weather is answered with the food paragraph as well as with the
    weather paragraph. *)
Theorem weather_brings_food message :
  includes (toLowerCase message) "weather" = true ->
  includes (generateOfflineChatbotResponse message) WEATHER_TEXT = true
  /\ includes (generateOfflineChatbotResponse message) FOOD_TEXT = true.
Proof.
  intros Hw.
  assert (He : includes (toLowerCase message) "eat" = true)
    by (eapply includes_trans; [exact Hw | reflexivity]).
  destruct (answer_is_join message) as (canned & -> & Hall & _ & _).
  assert (H1 : In WEATHER_TEXT canned).
  { apply (Hall ["weather"]); [cbn; tauto|].
    unfold mentions. cbn. now rewrite Hw. }
  assert (H2 : In FOOD_TEXT canned).
  { apply (Hall ["food"; "restaurant"; "eat"]); [cbn; tauto|].
    unfold mentions. cbn. rewrite He. now rewrite !orb_true_r. }
  destruct canned as [|x l]; [destruct H1|].
  split; now apply includes_join.
Qed.

Lemma weather_brings_food_witness :
  includes (generateOfflineChatbotResponse "How is the weather?") FOOD_TEXT = true.
Proof.
  apply (weather_brings_food "How is the weather?"). reflexivity.
Defined.




End OfflineMore.

(** ** More on the translation endpoint *)

Module TranslateMore.

Import JS JSFacts Translate Chain ChainFacts SubstringFacts.

(** Splitting a dictionary key at its dash. *)
Ltac peel H f :=
  repeat (destruct f as [|? f];
          [ cbv [String.append] in H; try discriminate H
          | rewrite append_cons in H;
            first [ injection H as -> H | discriminate H ] ]).

Lemma pair_of_key f l target :
  In target ["Hindi"; "Konkani"; "Marathi"] ->
  f ++ "-" ++ l = "English-" ++ target ->
  f = "English" /\ l = target.
Proof.
  intros Hin H. cbn in Hin.
  destruct Hin as [<-|[<-|[<-|[]]]]; cbn in H.
  - peel H f. injection H as ->. auto.
  - peel H f. injection H as ->. auto.
  - peel H f. injection H as ->. auto.
Qed.

(** The dictionaries cover the pairs from English to Hindi, Konkani and
    Marathi, and no other. *)
Lemma dictionary_pairs f l translationMap :
  own_get (f ++ "-" ++ l) Dictionary.fallbackTranslations = Some translationMap ->
  f = "English" /\ In l ["Hindi"; "Konkani"; "Marathi"].
Proof.
  unfold Dictionary.fallbackTranslations. cbn [own_get].
  destruct (String.eqb _ "English-Hindi") eqn:E1.
  { apply String.eqb_eq in E1. intros _.
    destruct (pair_of_key f l "Hindi") as [-> ->]; cbn; auto. }
  destruct (String.eqb _ "English-Konkani") eqn:E2.
  { apply String.eqb_eq in E2. intros _.
    destruct (pair_of_key f l "Konkani") as [-> ->]; cbn; auto. }
  destruct (String.eqb _ "English-Marathi") eqn:E3.
  { apply String.eqb_eq in E3. intros _.
    destruct (pair_of_key f l "Marathi") as [-> ->]; cbn; auto. }
  discriminate.
Qed.

Section Patterns.

Variable translationPatterns : list (string * obj).

(** The [catch] block: the first of OpenRouter (when a key is
    configured), LibreTranslate and MyMemory that returns a text answers;
    after them the dictionaries do. *)
Lemma translate_catch_shape e now cooldown t f l error :
  let keyed := truthy (OPENROUTER_API_KEY e) in
  let tried := if keyed then ["openrouter"] else [] in
  (exists c, keyed = true /\ answered (openrouter e) = Some c
     /\ translate_catch translationPatterns e now cooldown t f l error
        = (cooldown,
           provider_reply t f l (trim c)
             ("openrouter:"
              ++ or_default (OPENROUTER_DEFAULT_MODEL e) "gpt-5.1-codex-max"),
           tried))
  \/ ((keyed = false \/ answered (openrouter e) = None)
      /\ ((exists c, answered (libreTranslate e) = Some c
           /\ translate_catch translationPatterns e now cooldown t f l error
              = (cooldown, provider_reply t f l (trim c) "libretranslate",
                 (tried ++ ["libretranslate"])%list))
          \/ (answered (libreTranslate e) = None
              /\ ((exists c, answered (myMemoryTranslate e) = Some c
                   /\ translate_catch translationPatterns e now cooldown t f l error
                      = (cooldown, provider_reply t f l (trim c) "mymemory",
                         (tried ++ ["libretranslate"; "mymemory"])%list))
                  \/ (answered (myMemoryTranslate e) = None
                      /\ translate_catch translationPatterns e now cooldown t f l error
                         = (if Provider.status_is (Provider.status error) 429
                            then (now + CHATBOT_PROVIDER_COOLDOWN_MS)%Z
                            else cooldown,
                            Replied
                              (Ok true t (offline_translate translationPatterns t f l) f l
                                 None (Some true)
                                 (Some (if Provider.status_is
                                             (Provider.status error) 429
                                        then "Rate limited. Using fallback translation."
                                        else "Using fallback translation"))),
                            (tried ++ ["libretranslate"; "mymemory"])%list)))))).
Proof.
  cbn zeta. unfold translate_catch. cbn zeta.
  destruct (truthy (OPENROUTER_API_KEY e)) eqn:Hk.
  - destruct (answered_cases (openrouter e)) as [(c & -> & Hc & Ha)|[Hf Ha]].
    + left. exists c. rewrite Hc. auto.
    + right. split; [auto|].
      assert (Hnone : match openrouter e with
                      | Provider.Returned (Some content) =>
                          if truthy_str content then Some content else None
                      | _ => None
                      end = None) by exact Ha.
      rewrite Hnone.
      destruct (libreTranslate e) as [x|[[|a s]|]];
        destruct (myMemoryTranslate e) as [y|[[|a' s']|]]; cbn; eauto 8.
  - right. split; [auto|].
    destruct (libreTranslate e) as [x|[[|a s]|]];
      destruct (myMemoryTranslate e) as [y|[[|a' s']|]]; cbn; eauto 8.
Qed.

(** The handler on a request that carries its three fields. *)
Lemma translate_shape e now cooldown b t f l :
  text b = Some t -> truthy_str t = true ->
  fromLanguage b = Some f -> truthy_str f = true ->
  toLanguage b = Some l -> truthy_str l = true ->
  (exists g, answered (gtranslate e) = Some g
     /\ translate translationPatterns e now cooldown b
        = (cooldown, provider_reply t f l (trim g) "google-translate-ai",
           ["google-translate"]))
  \/ (answered (gtranslate e) = None
      /\ translate translationPatterns e now cooldown b
         = (let '(cd, resp, tr) :=
              translate_catch translationPatterns e now cooldown t f l
                (caught "No translation result from AI" (gtranslate e)) in
            (cd, resp, "google-translate" :: tr))).
Proof.
  intros Ht Htt Hf Hft Hl Hlt. unfold translate. rewrite Ht, Hf, Hl.
  destruct t as [|tc tr]; [discriminate|].
  destruct f as [|fc fr]; [discriminate|].
  destruct l as [|lc lr]; [discriminate|].
  destruct (gtranslate e) as [x|[[|a s]|]]; cbn; eauto.
Qed.

(** The names a provider reply can carry. *)
Lemma provider_reply_fields t f l x name :
  exists r, provider_reply t f l x name = Replied r
            /\ success r = true /\ originalText r = t
            /\ ok_fromLanguage r = f /\ ok_toLanguage r = l
            /\ translatedText r = VStr x
            /\ provider r = Some name /\ fallback r = None /\ message r = None.
Proof. eexists. repeat split. Qed.

(** X12. The translation endpoint never answers with a server error.
    When one of [text], [fromLanguage], [toLanguage] is absent or empty it
    answers 400 at once: nothing is contacted and the cooldown is left
    alone. Otherwise it answers 200 with [success] true and the text and
    the languages of the request; the reply names a provider exactly when
    it does not carry [fallback: true], and a fallback reply carries the
    offline translation. *)
Theorem translate_always_answers e now cooldown b :
  (truthy (text b) && truthy (fromLanguage b) && truthy (toLanguage b) = false
   /\ translate translationPatterns e now cooldown b
      = (cooldown,
         Failed (Http.ErrorBody 400
                   "Missing required parameters: text, fromLanguage, toLanguage"
                   None None),
         []))
  \/ (exists t f l r,
        text b = Some t /\ fromLanguage b = Some f /\ toLanguage b = Some l
        /\ truthy_str t = true /\ truthy_str f = true /\ truthy_str l = true
        /\ (translate translationPatterns e now cooldown b).1.2 = Replied r
        /\ success r = true /\ originalText r = t
        /\ ok_fromLanguage r = f /\ ok_toLanguage r = l
        /\ ((exists name, provider r = Some name /\ fallback r = None)
            \/ (provider r = None /\ fallback r = Some true
                /\ translatedText r = offline_translate translationPatterns t f l))).
Proof.
  destruct (text b) as [[|tc tr]|] eqn:Ht;
    try (left; split; [reflexivity | unfold translate; rewrite Ht; reflexivity]).
  destruct (fromLanguage b) as [[|fc fr]|] eqn:Hf;
    try (left; split; [reflexivity | unfold translate; rewrite Ht, Hf; reflexivity]).
  destruct (toLanguage b) as [[|lc lr]|] eqn:Hl;
    try (left; split; [reflexivity | unfold translate; rewrite Ht, Hf, Hl; reflexivity]).
  right.
  exists (String tc tr), (String fc fr), (String lc lr).
  destruct (translate_shape e now cooldown b _ _ _ Ht eq_refl Hf eq_refl Hl eq_refl)
    as [(g & _ & ->) | [_ ->]].
  - eexists. repeat (split; [reflexivity|]). left. eauto.
  - destruct (translate_catch_shape e now cooldown (String tc tr) (String fc fr) (String lc lr)
                (caught "No translation result from AI" (gtranslate e)))
      as [(c & _ & _ & ->) | [_ [(c & _ & ->) | [_ [(c & _ & ->) | [_ ->]]]]]];
      eexists; repeat (split; [reflexivity|]); eauto.
Qed.

(** X13. The providers are contacted in the order Google, OpenRouter
    (when a key is configured), LibreTranslate, MyMemory, and the handler
    stops at the first that returns a text: the list of contacts is a
    non-empty beginning of that chain. A fallback reply is sent only after
    the whole chain has been contacted, and without a key OpenRouter is
    never contacted. *)
Theorem translate_contacts_in_order e now cooldown b :
  truthy (text b) && truthy (fromLanguage b) && truthy (toLanguage b) = true ->
  let keyed := truthy (OPENROUTER_API_KEY e) in
  let contacted := (translate translationPatterns e now cooldown b).2 in
  (exists n, contacted = firstn (S n) (translation_chain keyed))
  /\ (forall r, (translate translationPatterns e now cooldown b).1.2 = Replied r ->
             fallback r = Some true -> contacted = translation_chain keyed)
  /\ (keyed = false -> ~ In "openrouter" contacted).
Proof.
  intros Hv. cbn zeta.
  destruct (text b) as [[|tc tr]|] eqn:Ht; try discriminate Hv.
  destruct (fromLanguage b) as [[|fc fr]|] eqn:Hf; try discriminate Hv.
  destruct (toLanguage b) as [[|lc lr]|] eqn:Hl; try discriminate Hv.
  destruct (translate_shape e now cooldown b _ _ _ Ht eq_refl Hf eq_refl Hl eq_refl)
    as [(g & _ & ->) | [_ ->]].
  - cbn [fst snd]. split; [exists 0%nat; reflexivity|].
    split; [intros r [= <-]; discriminate|].
    intros _ [E|[]]. discriminate E.
  - destruct (translate_catch_shape e now cooldown (String tc tr) (String fc fr) (String lc lr)
                (caught "No translation result from AI" (gtranslate e)))
      as [(c & Hk & _ & ->) | [_ [(c & _ & ->) | [_ [(c & _ & ->) | [_ ->]]]]]];
      cbn [fst snd]; unfold translation_chain.
    + rewrite Hk. split; [exists 1%nat; reflexivity|].
      split; [intros r [= <-]; discriminate | discriminate].
    + destruct (truthy (OPENROUTER_API_KEY e));
        (split; [(exists 2%nat; reflexivity) || (exists 1%nat; reflexivity)|]);
        (split; [intros r [= <-]; discriminate|]);
        [discriminate|].
      intros _ H. cbn in H.
      repeat (destruct H as [H|H]; [discriminate H|]). destruct H.
    + destruct (truthy (OPENROUTER_API_KEY e));
        (split; [(exists 3%nat; reflexivity) || (exists 2%nat; reflexivity)|]);
        (split; [intros r [= <-]; discriminate|]);
        [discriminate|].
      intros _ H. cbn in H.
      repeat (destruct H as [H|H]; [discriminate H|]). destruct H.
    + destruct (truthy (OPENROUTER_API_KEY e));
        (split; [(exists 3%nat; reflexivity) || (exists 2%nat; reflexivity)|]);
        (split; [reflexivity|]);
        [discriminate|].
      intros _ H. cbn in H.
      repeat (destruct H as [H|H]; [discriminate H|]). destruct H.
Qed.

Lemma catch_ignores_cooldown e now c1 c2 t f l error :
  (translate_catch translationPatterns e now c1 t f l error).1.2
  = (translate_catch translationPatterns e now c2 t f l error).1.2
  /\ (translate_catch translationPatterns e now c1 t f l error).2
     = (translate_catch translationPatterns e now c2 t f l error).2.
Proof.
  unfold translate_catch. cbn zeta.
  repeat match goal with
         | |- context [match ?x with _ => _ end] => destruct x
         end; split; reflexivity.
Qed.

(** X14. The handler never reads the cooldown, and changes it in one case
    only: when the whole chain has failed and the error of the Google
    call carried status 429, the cooldown is set one second ahead of the
    clock and the reply says ['Rate limited. Using fallback translation.'].
    A status 429 from a later provider changes nothing. *)
Theorem translate_cooldown_follows_google e now cooldown b :
  truthy (text b) && truthy (fromLanguage b) && truthy (toLanguage b) = true ->
  (forall other,
      (translate translationPatterns e now other b).1.2
      = (translate translationPatterns e now cooldown b).1.2
      /\ (translate translationPatterns e now other b).2
         = (translate translationPatterns e now cooldown b).2)
  /\ exists r,
      (translate translationPatterns e now cooldown b).1.2 = Replied r
      /\ ((message r = Some "Rate limited. Using fallback translation."
           /\ (translate translationPatterns e now cooldown b).1.1 = (now + 1000)%Z
           /\ fallback r = Some true
           /\ exists error, gtranslate e = Provider.Threw error
                            /\ Provider.status error = Some 429%Z)
          \/ (message r <> Some "Rate limited. Using fallback translation."
              /\ (translate translationPatterns e now cooldown b).1.1 = cooldown)).
Proof.
  intros Hv.
  destruct (text b) as [[|tc tr]|] eqn:Ht; try discriminate Hv.
  destruct (fromLanguage b) as [[|fc fr]|] eqn:Hf; try discriminate Hv.
  destruct (toLanguage b) as [[|lc lr]|] eqn:Hl; try discriminate Hv.
  split.
  - intros other. unfold translate. rewrite Ht, Hf, Hl.
    destruct (gtranslate e) as [x|[[|a s]|]];
      try (split; reflexivity);
      match goal with
      | |- context [translate_catch _ _ _ other _ _ _ ?err] =>
          destruct (catch_ignores_cooldown e now other cooldown
                      (String tc tr) (String fc fr) (String lc lr) err) as [H1 H2];
          destruct (translate_catch translationPatterns e now other
                      (String tc tr) (String fc fr) (String lc lr) err)
            as [[cd1 r1] t1];
          destruct (translate_catch translationPatterns e now cooldown
                      (String tc tr) (String fc fr) (String lc lr) err)
            as [[cd2 r2] t2]
      end; cbn in *; subst; split; reflexivity.
  - destruct (translate_shape e now cooldown b _ _ _ Ht eq_refl Hf eq_refl Hl eq_refl)
      as [(g & _ & ->) | [Hg ->]].
    + eexists. split; [reflexivity|]. right. split; [discriminate | reflexivity].
    + destruct (translate_catch_shape e now cooldown (String tc tr) (String fc fr) (String lc lr)
                  (caught "No translation result from AI" (gtranslate e)))
        as [(c & _ & _ & ->) | [_ [(c & _ & ->) | [_ [(c & _ & ->) | [_ ->]]]]]];
        try (eexists; split; [reflexivity|]; right;
             split; [discriminate | reflexivity]).
      eexists. split; [reflexivity|]. cbn [fst snd message fallback].
      destruct (Provider.status_is _ 429) eqn:Hs.
      * left. split; [reflexivity|]. split; [reflexivity|]. split; [reflexivity|].
        destruct (gtranslate e) as [x|fld]; [|discriminate Hs].
        exists x. split; [reflexivity|]. cbn in Hs.
        destruct (Provider.status x) as [z|]; [|discriminate Hs].
        cbn in Hs. apply Z.eqb_eq in Hs. now subst.
      * right. split; [discriminate | reflexivity].
Qed.

(** X15. With every provider failing, each phrase of the dictionary of
    the requested pair is answered with the translation the dictionary
    gives it, with [fallback] true. *)
Theorem every_phrase_is_translated e now cooldown b f l translationMap phrase v :
  fromLanguage b = Some f -> truthy_str f = true ->
  toLanguage b = Some l -> truthy_str l = true ->
  own_get (f ++ "-" ++ l) Dictionary.fallbackTranslations = Some translationMap ->
  own_get phrase translationMap = Some v ->
  text b = Some phrase ->
  all_fail e = true ->
  exists r,
    (translate translationPatterns e now cooldown b).1.2 = Replied r
    /\ translatedText r = VStr v /\ fallback r = Some true.
Proof.
  intros Hf Hft Hl Hlt Hm Hv Ht Hfail.
  pose proof (TranslateFacts.dictionary_value_truthy _ _ _ _ Hm Hv) as Hvt.
  assert (Hpt : truthy_str phrase = true).
  { destruct phrase; [|reflexivity].
    apply own_get_In in Hm, Hv.
    assert (Hkeys : forallb (fun km => forallb (fun kv => truthy_str (fst kv)) (snd km))
                      Dictionary.fallbackTranslations = true)
      by (vm_compute; reflexivity).
    rewrite forallb_forall in Hkeys. specialize (Hkeys _ Hm). cbn in Hkeys.
    rewrite forallb_forall in Hkeys. exact (Hkeys _ Hv). }
  destruct (TranslateFacts.translate_offline translationPatterns e now cooldown b
              phrase f l Ht Hpt Hf Hft Hl Hlt Hfail) as [note ->].
  eexists. split; [reflexivity|]. split; [|reflexivity].
  cbn [translatedText]. unfold offline_translate. rewrite Hm. cbn zeta.
  unfold get at 1 2. rewrite Hv. cbn [truthy_value]. now rewrite Hvt.
Qed.

(** X16. The phrase lookup does not depend on the case of the letters: a
    text (not the name of an inherited member) that equals a phrase of the
    dictionary up to case is given the translation of a phrase it equals
    up to case. *)
Theorem phrase_lookup_ignores_case text f l translationMap phrase :
  own_get (f ++ "-" ++ l) Dictionary.fallbackTranslations = Some translationMap ->
  In phrase (keys translationMap) ->
  toLowerCase text = toLowerCase phrase ->
  truthy_str text = true ->
  inherited text = false ->
  exists phrase' v,
    own_get phrase' translationMap = Some v
    /\ toLowerCase phrase' = toLowerCase text
    /\ offline_translate translationPatterns text f l = VStr v.
Proof.
  intros Hm Hin Hlow Htt Hinh. unfold offline_translate. rewrite Hm. cbn zeta.
  destruct (truthy_value (get translationMap text)) eqn:Hexact.
  - unfold get in *. destruct (own_get text translationMap) as [s|] eqn:Hown.
    + exists text, s. auto.
    + rewrite Hinh in Hexact. discriminate Hexact.
  - destruct (find_key _ _) as [found|] eqn:Hfind.
    + apply List.find_some in Hfind as [Hfin Heq]. apply String.eqb_eq in Heq.
      destruct found as [|c r].
      * cbn in Heq. destruct text; [discriminate Htt | discriminate Heq].
      * destruct (get_own_key _ _ Hfin) as (v & Hown & ->).
        exists (String c r), v. auto.
    + exfalso. eapply List.find_none in Hfind; [|exact Hin].
      rewrite Hlow, String.eqb_refl in Hfind. discriminate Hfind.
Qed.


(** X27. A provider text is accepted when it is not empty, before it is
    trimmed: when Google returns a text made of white space only, the
    reply names Google, carries no [fallback] and has an empty
    [translatedText]. *)
Theorem blank_answer_is_accepted e now cooldown b t f l g :
  text b = Some t -> truthy_str t = true ->
  fromLanguage b = Some f -> truthy_str f = true ->
  toLanguage b = Some l -> truthy_str l = true ->
  gtranslate e = Provider.Returned (Some g) ->
  truthy_str g = true -> trim g = "" ->
  exists r,
    translate translationPatterns e now cooldown b
    = (cooldown, Replied r, ["google-translate"])
    /\ translatedText r = VStr "" /\ provider r = Some "google-translate-ai"
    /\ fallback r = None /\ has_text r = false.
Proof.
  intros Ht Htt Hf Hft Hl Hlt Hg Hgt Htrim.
  destruct (translate_shape e now cooldown b t f l Ht Htt Hf Hft Hl Hlt)
    as [(g' & Hg' & ->) | [Hnone _]].
  - rewrite Hg in Hg'. cbn in Hg'. rewrite Hgt in Hg'. injection Hg' as <-.
    rewrite Htrim. eexists. split; [reflexivity|]. repeat split.
  - rewrite Hg in Hnone. cbn in Hnone. rewrite Hgt in Hnone. discriminate Hnone.
Qed.

(** X17. The dictionaries only translate from English into Hindi,
    Konkani or Marathi: with every provider failing, a request for any
    other pair of languages is answered with its own text, unchanged, and
    [fallback] true. *)
Theorem other_pairs_are_echoed e now cooldown b t f l :
  text b = Some t -> truthy_str t = true ->
  fromLanguage b = Some f -> truthy_str f = true ->
  toLanguage b = Some l -> truthy_str l = true ->
  ~ (f = "English" /\ In l ["Hindi"; "Konkani"; "Marathi"]) ->
  all_fail e = true ->
  exists r,
    (translate translationPatterns e now cooldown b).1.2 = Replied r
    /\ translatedText r = VStr t /\ fallback r = Some true.
Proof.
  intros Ht Htt Hf Hft Hl Hlt Hpair Hfail.
  destruct (TranslateFacts.translate_offline translationPatterns e now cooldown b
              t f l Ht Htt Hf Hft Hl Hlt Hfail) as [note ->].
  eexists. split; [reflexivity|]. split; [|reflexivity].
  cbn [translatedText]. unfold offline_translate.
  destruct (own_get _ Dictionary.fallbackTranslations) as [m|] eqn:Hm; [|reflexivity].
  now apply dictionary_pairs in Hm.
Qed.

End Patterns.

Lemma other_pairs_witness :
  exists r,
    (translate [] Samples.translate_down 1000 0
       (Body (Some "नमस्ते") (Some "Hindi") (Some "English"))).1.2 = Replied r
    /\ translatedText r = VStr "नमस्ते" /\ fallback r = Some true.
Proof.
  apply (other_pairs_are_echoed [] Samples.translate_down 1000 0
           (Body (Some "नमस्ते") (Some "Hindi") (Some "English"))
           "नमस्ते" "Hindi" "English"); try reflexivity.
  intros [E _]. discriminate E.
Defined.


Lemma blank_answer_witness :
  exists r,
    translate [] (Env None None (Provider.Returned (Some "  "))
                    Samples.unreachable Samples.unreachable Samples.unreachable)
      1000 0 Samples.hello
    = (0%Z, Replied r, ["google-translate"])
    /\ translatedText r = VStr "" /\ provider r = Some "google-translate-ai"
    /\ fallback r = None /\ has_text r = false.
Proof.
  apply (blank_answer_is_accepted []
           (Env None None (Provider.Returned (Some "  "))
              Samples.unreachable Samples.unreachable Samples.unreachable)
           1000 0 Samples.hello "Hello" "English" "Hindi" "  ");
    reflexivity.
Defined.

Lemma translate_always_answers_witness :
  translate [] Samples.translate_down 1000 0
    (Body (Some "Hello") (Some "") (Some "Hindi"))
  = (0%Z,
     Failed (Http.ErrorBody 400
               "Missing required parameters: text, fromLanguage, toLanguage"
               None None),
     []).
Proof.
  destruct (translate_always_answers [] Samples.translate_down 1000 0
              (Body (Some "Hello") (Some "") (Some "Hindi")))
    as [[_ H] | (t & f & l & r & _ & Hf & _ & _ & Hft & _)].
  - exact H.
  - cbn in Hf. injection Hf as <-. discriminate Hft.
Defined.

Lemma translate_contacts_witness :
  (translate [] Samples.translate_down 1000 0 Samples.hello).2
  = ["google-translate"; "openrouter"; "libretranslate"; "mymemory"].
Proof.
  destruct (translate_contacts_in_order [] Samples.translate_down 1000 0
              Samples.hello eq_refl) as (_ & H & _).
  eapply H; reflexivity.
Defined.

Lemma translate_cooldown_witness :
  (translate [] Samples.translate_down 1000 0 Samples.hello).1.1
  = 2000%Z.
Proof.
  destruct (translate_cooldown_follows_google [] Samples.translate_down 1000 0
              Samples.hello eq_refl) as (_ & r & Hr & [(_ & H & _)|[H _]]).
  - exact H.
  - exfalso. apply H.
    assert (E : Replied r
                = Replied (Ok true "Hello" (VStr "नमस्ते") "English" "Hindi" None
                             (Some true)
                             (Some "Rate limited. Using fallback translation.")))
      by (rewrite <- Hr; vm_compute; reflexivity).
    injection E as ->. reflexivity.
Defined.

Lemma every_phrase_witness :
  exists r,
    (translate [] Samples.translate_down 1000 0
       (Body (Some "Thank you") (Some "English") (Some "Marathi"))).1.2 = Replied r
    /\ translatedText r = VStr "धन्यवाद" /\ fallback r = Some true.
Proof.
  eapply (every_phrase_is_translated [] Samples.translate_down 1000 0
            (Body (Some "Thank you") (Some "English") (Some "Marathi"))
            "English" "Marathi" _ "Thank you");
    try reflexivity; vm_compute; reflexivity.
Defined.

Lemma phrase_lookup_witness :
  exists phrase' v,
    own_get phrase' (obj_of_literal Dictionary.English_Hindi_literal) = Some v
    /\ toLowerCase phrase' = toLowerCase "THANK YOU"
    /\ offline_translate [] "THANK YOU" "English" "Hindi" = VStr v.
Proof.
  apply (phrase_lookup_ignores_case [] "THANK YOU" "English" "Hindi"
           (obj_of_literal Dictionary.English_Hindi_literal) "Thank you").
  - vm_compute. reflexivity.
  - vm_compute. tauto.
  - reflexivity.
  - reflexivity.
  - reflexivity.
Defined.

End TranslateMore.

(** ** More on place discovery *)

Module PlacesMore.

Import JS Places PlacesFacts.

Lemma insert_sorted_In cmp x l p :
  In p (insert_sorted cmp x l) <-> p = x \/ In p l.
Proof.
  induction l as [|y r IH]; cbn; [intuition auto|].
  destruct (Qle_bool (cmp x y) 0); cbn; [intuition auto|].
  rewrite IH. intuition auto.
Qed.

Lemma sort_In cmp l p : In p (sort cmp l) <-> In p l.
Proof.
  unfold sort. induction l as [|x l IH]; cbn; [tauto|].
  rewrite insert_sorted_In, IH. intuition auto.
Qed.

Lemma insert_sorted_perm cmp x l : Permutation (insert_sorted cmp x l) (x :: l).
Proof.
  induction l as [|y r IH]; cbn; [reflexivity|].
  destruct (Qle_bool (cmp x y) 0); [reflexivity|].
  rewrite IH. apply perm_swap.
Qed.

(** The sort rearranges the places and does nothing else. *)
Lemma sort_perm cmp l : Permutation (sort cmp l) l.
Proof.
  unfold sort. induction l as [|x l IH]; cbn; [reflexivity|].
  rewrite insert_sorted_perm. now constructor.
Qed.

Lemma sorted_app_order {A} (R : A -> A -> Prop) l1 l2 :
  StronglySorted R (l1 ++ l2) ->
  forall x y, In x l1 -> In y l2 -> R x y.
Proof.
  induction l1 as [|a l1 IH]; cbn; [intros _ x y []|].
  intros H x y [<-|Hx] Hy; inversion H as [|? ? Hs Hall]; subst.
  - rewrite List.Forall_forall in Hall. apply Hall, in_or_app. now right.
  - eauto.
Qed.

Lemma firstn_subset {A} n (l : list A) x : In x (firstn n l) -> In x l.
Proof.
  revert n. induction l as [|y l IH]; intros [|n]; cbn; try tauto.
  intros [E|H]; eauto.
Qed.

Lemma round1_nonneg x : (0 <= x)%Q -> (0 <= round1 x)%Q.
Proof.
  intros Hx. unfold round1.
  assert (H : (0 <= Qfloor (x * 10 + (1 # 2)))%Z).
  { change 0%Z with (Qfloor 0). apply Qfloor_resp_le. lra. }
  apply Qle_shift_div_l; [reflexivity|]. rewrite Qmult_0_l.
  change 0%Q with (inject_Z 0). now rewrite <- Zle_Qle.
Qed.


(** The loop over the servers, from any point of the list. *)
Lemma query_first_answer overpass before url after data :
  Forall (fun u => exists e, overpass u = Broke e) before ->
  overpass url = Answered data ->
  forall lastError contacted,
    exists lastError',
      query overpass (before ++ url :: after) lastError contacted
      = (Some data, lastError', (contacted ++ before ++ [url])%list).
Proof.
  intros Hb Hu. induction Hb as [|u before [e He] _ IH]; intros lastError contacted.
  - cbn. rewrite Hu. eauto.
  - cbn. rewrite He. destruct (IH (Some e) (contacted ++ [u])%list) as [le ->].
    exists le. now rewrite <- app_assoc.
Qed.

Section Distance.

Variable haversine : Q -> Q -> Q -> Q -> Q.

(** X18. The servers are asked in the order of the list and the first
    that answers decides the reply: the servers before it, which failed,
    leave no trace in the reply, and the servers after it are not
    contacted. An answer without elements gives an empty list of
    places. *)
Theorem first_answer_wins overpass b before url after data :
  truthy_onum (latitude b) = true ->
  truthy_onum (longitude b) = true ->
  overpassUrls = (before ++ url :: after)%list ->
  Forall (fun u => exists e, overpass u = Broke e) before ->
  overpass url = Answered data ->
  nearby haversine overpass b
  = (match data with
     | Some elements =>
         let places :=
           process haversine (default 0%Q (latitude b)) (default 0%Q (longitude b))
             (searchRadius b) elements in
         Found places (length places)
     | None => Found [] 0
     end,
     (before ++ [url])%list).
Proof.
  intros Hlat Hlon Hurls Hb Hu. unfold nearby. rewrite Hlat, Hlon. cbn [negb orb].
  rewrite Hurls.
  destruct (query_first_answer overpass before url after data Hb Hu None [])
    as [le ->].
  cbn [app]. destruct data; reflexivity.
Qed.

(** The places that are candidates for the reply: built from the named
    elements and within the radius. *)
Lemma process_firstn latitude longitude radius_m elements :
  process haversine latitude longitude radius_m elements
  = firstn 50
      (sort by_distance
         (List.filter (fun p => Qle_bool (distance p) (radius_m / 1000))
            (map (to_place haversine latitude longitude)
               (List.filter named elements)))).
Proof. reflexivity. Qed.

(** X19. Every place of a reply is built from an element of the answer
    that has a non-empty name: it carries the id and the name of that
    element, and its category and its address are never empty. Elements
    without a name are never returned. *)
Theorem places_come_from_named_elements latitude longitude radius_m elements p :
  In p (process haversine latitude longitude radius_m elements) ->
  exists el,
    In el elements
    /\ tag el "name" = Some (name p)
    /\ p = to_place haversine latitude longitude el
    /\ pl_id p = pretty (id el)
    /\ truthy_str (name p) = true
    /\ truthy_str (category p) = true
    /\ truthy_str (address p) = true.
Proof.
  rewrite process_firstn. intros Hp.
  apply firstn_subset, sort_In, filter_In in Hp as [Hp _].
  apply in_map_iff in Hp as (el & <- & Hel).
  apply filter_In in Hel as [Hel Hnamed].
  exists el. split; [assumption|].
  unfold named in Hnamed. cbn [name pl_id category address to_place].
  destruct (tag el "name") as [[|c r]|] eqn:Hname; try discriminate Hnamed.
  split; [reflexivity|]. split; [reflexivity|]. split; [reflexivity|].
  split; [reflexivity|]. split.
  - destruct (tag el "amenity") as [[|? ?]|]; cbn; try reflexivity;
      destruct (tag el "tourism") as [[|? ?]|]; cbn; try reflexivity;
      destruct (tag el "shop") as [[|? ?]|]; reflexivity.
  - destruct (tag el "addr:street") as [[|? ?]|]; cbn; try reflexivity;
      destruct (tag el "addr:city") as [[|? ?]|]; reflexivity.
Qed.

(** X20. The reply holds the nearest candidates: it is as long as the
    list of candidates, 50 at most; when there are 50 candidates or fewer
    it holds them all; and a candidate that is left out is at least as
    far as every place of the reply. *)
Theorem reply_keeps_the_nearest latitude longitude radius_m elements :
  let candidates :=
    List.filter (fun p => Qle_bool (distance p) (radius_m / 1000))
      (map (to_place haversine latitude longitude) (List.filter named elements)) in
  let places := process haversine latitude longitude radius_m elements in
  length places = Nat.min 50 (length candidates)
  /\ ((length candidates <= 50)%nat -> Permutation places candidates)
  /\ (forall p q, In p places -> In q candidates -> ~ In q places -> closer p q).
Proof.
  cbn zeta. rewrite process_firstn.
  set (candidates := List.filter _ _).
  pose proof (sort_perm by_distance candidates) as Hperm.
  split; [|split].
  - rewrite length_firstn. now rewrite (Permutation_length Hperm).
  - intros Hlen. rewrite firstn_all2; [exact Hperm|].
    now rewrite (Permutation_length Hperm).
  - intros p q Hp Hq Hnot.
    pose proof (sort_sorted candidates) as Hs.
    rewrite <- (firstn_skipn 50 (sort by_distance candidates)) in Hs.
    apply (sorted_app_order _ _ _ Hs); [assumption|].
    apply (Permutation_in _ (Permutation_sym Hperm)) in Hq.
    rewrite <- (firstn_skipn 50 (sort by_distance candidates)) in Hq.
    apply in_app_or in Hq as [Hq|Hq]; [contradiction | assumption].
Qed.


(** X22. When the haversine expression is never negative, a request
    with a negative radius finds nothing: every successful reply is the
    empty list. *)
Theorem negative_radius_finds_nothing overpass b r places total contacted :
  (forall lat lon latitude longitude, (0 <= haversine lat lon latitude longitude)%Q) ->
  radius b = Some r -> (r < 0)%Q ->
  nearby haversine overpass b = (Found places total, contacted) ->
  places = [] /\ total = 0%nat.
Proof.
  intros Hpos Hr Hneg. unfold nearby.
  destruct (negb _ || negb _); [discriminate|].
  destruct (query overpass overpassUrls None []) as [[response lastError] c].
  destruct response as [[elements|]|]; [| |discriminate].
  - assert (Hempty : process haversine (default 0%Q (latitude b))
                       (default 0%Q (longitude b)) (searchRadius b) elements = []).
    { rewrite process_firstn.
      assert (Hsr : (searchRadius b / 1000 < 0)%Q).
      { unfold searchRadius. rewrite Hr. unfold truthy_num.
        destruct (Qeq_bool r 0) eqn:E; cbn.
        - apply Qeq_bool_iff in E. lra.
        - apply Qlt_shift_div_r; [reflexivity|]. lra. }
      match goal with
      | |- firstn 50 (sort by_distance ?l) = [] => assert (Hl : l = [])
      end.
      { assert (Hall : Forall (fun p => (0 <= distance p)%Q)
                         (map (to_place haversine (default 0%Q (latitude b))
                                 (default 0%Q (longitude b)))
                            (List.filter named elements))).
        { apply List.Forall_forall. intros p Hp.
          apply in_map_iff in Hp as (el & <- & _).
          cbn [distance to_place]. apply round1_nonneg, Hpos. }
        induction Hall as [|p l Hp _ IH]; [reflexivity|]. cbn.
        destruct (Qle_bool (distance p) (searchRadius b / 1000)) eqn:E; [|exact IH].
        exfalso. apply Qle_bool_iff in E. lra. }
      now rewrite Hl. }
    rewrite Hempty. intros [= <- <- _]. auto.
  - intros [= <- <- _]. auto.
Qed.

End Distance.

Lemma first_answer_wins_witness :
  nearby Samples.sample_haversine Cases.second_answers Samples.around_goa
  = (Found
       (process Samples.sample_haversine Samples.goa_lat Samples.goa_lon 5000
          [Samples.cafe])
       1,
     [ "https://overpass.kumi.systems/api/interpreter"
     ; "https://overpass-api.de/api/interpreter" ]).
Proof.
  apply (first_answer_wins Samples.sample_haversine Cases.second_answers
           Samples.around_goa
           ["https://overpass.kumi.systems/api/interpreter"]
           "https://overpass-api.de/api/interpreter"
           ["https://maps.mail.ru/osm/tools/overpass/api/interpreter"]
           (Some [Samples.cafe])); try reflexivity.
  constructor; [|constructor]. eexists. reflexivity.
Defined.

Lemma places_come_from_witness :
  exists el,
    In el [Samples.cafe]
    /\ tag el "name" = Some "Cafe Bodega"
    /\ pretty (id el) = "42".
Proof.
  destruct (places_come_from_named_elements Samples.sample_haversine
              Samples.goa_lat Samples.goa_lon 5000 [Samples.cafe]
              (to_place Samples.sample_haversine Samples.goa_lat Samples.goa_lon
                 Samples.cafe))
    as (el & H1 & H2 & _ & H4 & _).
  - vm_compute. left. reflexivity.
  - exists el. split; [exact H1|]. split; [exact H2|]. symmetry. exact H4.
Defined.

Lemma reply_keeps_the_nearest_witness :
  Permutation
    (process Samples.sample_haversine Samples.goa_lat Samples.goa_lon 5000
       [Samples.cafe; Samples.cafe])
    (List.filter (fun p => Qle_bool (distance p) (5000 / 1000))
       (map (to_place Samples.sample_haversine Samples.goa_lat Samples.goa_lon)
          (List.filter named [Samples.cafe; Samples.cafe]))).
Proof.
  destruct (reply_keeps_the_nearest Samples.sample_haversine
              Samples.goa_lat Samples.goa_lon 5000 [Samples.cafe; Samples.cafe])
    as (_ & H & _).
  apply H. vm_compute. lia.
Defined.

Lemma negative_radius_witness :
  (nearby Cases.no_distance Samples.first_answers Cases.negative_radius).1
  = Found [] 0.
Proof.
  destruct (nearby Cases.no_distance Samples.first_answers Cases.negative_radius)
    as [[e|places total] contacted] eqn:E.
  - vm_compute in E. discriminate E.
  - destruct (negative_radius_finds_nothing Cases.no_distance Samples.first_answers
                Cases.negative_radius (-(1000)) places total contacted
                (fun _ _ _ _ => Qle_refl 0) eq_refl eq_refl E) as [-> ->].
    reflexivity.
Defined.

End PlacesMore.

(** ** The weather endpoints *)

Module WeatherFacts.

Import JS Weather.

Lemma status_404_iff (s : option Z) :
  Provider.status_is s 404 = true <-> s = Some 404%Z.
Proof.
  destruct s as [z|]; cbn; [|split; discriminate].
  rewrite Z.eqb_eq. split; congruence.
Qed.

(** X23. A status 404 of OpenWeather is passed on by the city endpoint
    and by it alone: the city endpoint answers 404 exactly when the call
    threw with status 404, and answers the generic 500 for every other
    error; the coordinates endpoint answers the generic 500 for every
    error, a 404 included. Neither body carries the message of the
    error. *)
Theorem not_found_is_passed_on_by_city_only openweather now city lat lon :
  truthy_str city = true -> truthy_str lat = true -> truthy_str lon = true ->
  (status_of (by_city openweather now city).1 = 404%Z
   <-> exists error, openweather = Threw error
                     /\ Provider.status error = Some 404%Z)
  /\ (forall error, openweather = Threw error ->
        Provider.status error <> Some 404%Z ->
        (by_city openweather now city).1 = Failed generic_failure)
  /\ (forall error, openweather = Threw error ->
        (by_coords openweather now lat lon).1 = Failed generic_failure)
  /\ status_of (by_coords openweather now lat lon).1 <> 404%Z.
Proof.
  intros Hc Hlat Hlon. unfold by_city, by_coords. rewrite Hc, Hlat, Hlon.
  cbn [negb orb]. split; [|split; [|split]].
  - destruct openweather as [error|d].
    + destruct (Provider.status_is (Provider.status error) 404) eqn:Hs; cbn.
      * apply status_404_iff in Hs. split; [eauto | reflexivity].
      * split; [discriminate|]. intros (error' & [= <-] & E).
        apply status_404_iff in E. congruence.
    + destruct (city_reply now d); cbn; split; try discriminate;
        intros (error & E & _); discriminate E.
  - intros error -> Hne.
    destruct (Provider.status_is (Provider.status error) 404) eqn:Hs; [|reflexivity].
    apply status_404_iff in Hs. contradiction.
  - intros error ->. reflexivity.
  - destruct openweather as [error|d]; [discriminate|].
    destruct (coords_reply now d); discriminate.
Qed.

Lemma not_found_witness :
  (by_city Cases.city_unknown 1000 "Atlantis").1
  = Failed (Http.ErrorBody 404 "City not found"
              (Some "Please check the city name and try again") None)
  /\ (by_coords Cases.city_unknown 1000 "0" "0").1 = Failed generic_failure.
Proof.
  destruct (not_found_is_passed_on_by_city_only Cases.city_unknown 1000
              "Atlantis" "0" "0" eq_refl eq_refl eq_refl) as (H & _ & Hc & _).
  split.
  - assert (E : status_of (by_city Cases.city_unknown 1000 "Atlantis").1 = 404%Z).
    { apply H. eexists. split; reflexivity. }
    reflexivity.
  - apply (Hc _ eq_refl).
Defined.

(** X24. The city endpoint answers 200 exactly when OpenWeather returned
    a payload with its [sys], [main], [wind] and [clouds] parts and at
    least one entry in [weather]; a payload that lacks one of them gives
    the generic 500, never a partial reply. Whenever the city is given,
    OpenWeather is called exactly once. *)
Theorem weather_needs_a_complete_payload openweather now city :
  truthy_str city = true ->
  (status_of (by_city openweather now city).1 = 200%Z
   <-> exists d s m w0 ws w c,
         openweather = Returned (Some d)
         /\ sys d = Some s /\ main d = Some m /\ weather d = Some (w0 :: ws)
         /\ wind d = Some w /\ clouds d = Some c)
  /\ (forall d, openweather = Returned d ->
        status_of (by_city openweather now city).1 <> 200%Z ->
        (by_city openweather now city).1 = Failed generic_failure)
  /\ (by_city openweather now city).2 = 1%nat.
Proof.
  intros Hc. unfold by_city. rewrite Hc. cbn [negb].
  split; [|split].
  - destruct openweather as [error|[d|]].
    + destruct (Provider.status_is _ 404); cbn; split; try discriminate;
        intros (d & s & m & w0 & ws & w & c & E & _); discriminate E.
    + unfold city_reply.
      destruct (sys d) as [s|] eqn:Hs, (main d) as [m|] eqn:Hm,
               (weather d) as [[|w0 ws]|] eqn:Hw, (wind d) as [w|] eqn:Hwi,
               (clouds d) as [c|] eqn:Hcl; cbn;
        try (split; [discriminate|];
             intros (d' & s' & m' & w0' & ws' & w' & c' & [= <-] & E1 & E2 & E3 & E4 & E5);
             congruence).
      split; [|reflexivity]. intros _.
      exists d, s, m, w0, ws, w, c. auto 10.
    + cbn. split; [discriminate|].
      intros (d' & s' & m' & w0' & ws' & w' & c' & E & _). discriminate E.
  - intros d ->. destruct (city_reply now d); cbn; [congruence | reflexivity].
  - destruct openweather as [error|d].
    + now destruct (Provider.status_is _ 404).
    + now destruct (city_reply now d).
Qed.

Lemma complete_payload_witness :
  status_of (by_city (Returned (Some Cases.panaji)) 1000 "Panaji").1 = 200%Z.
Proof.
  apply (weather_needs_a_complete_payload (Returned (Some Cases.panaji)) 1000
           "Panaji" eq_refl).
  exists Cases.panaji. repeat eexists.
Defined.

Lemma round_close q z :
  round (Some q) = Some z ->
  (q - (1 # 2) < inject_Z z /\ inject_Z z <= q + (1 # 2))%Q.
Proof.
  intros H.
  assert (E : z = Qfloor (q + (1 # 2))) by (unfold round in H; congruence).
  subst z. clear H.
  pose proof (Qfloor_le (q + (1 # 2))) as Hle.
  pose proof (Qlt_floor (q + (1 # 2))) as Hlt.
  rewrite inject_Z_plus in Hlt. change (inject_Z 1) with 1%Q in Hlt.
  set (k := inject_Z (Qfloor (q + (1 # 2)))) in *.
  split; lra.
Qed.

(** X25. In a 200 reply of either endpoint, [temperature] and
    [feelsLike] are whole numbers within half a degree of the values of
    the payload (a half going upwards), and the name of the city, the
    humidity, the pressure, the wind speed and the cloud cover are those
    of the payload, unchanged. *)
Theorem weather_reply_follows_payload openweather now city lat lon r :
  (by_city openweather now city).1 = Replied r
  \/ (by_coords openweather now lat lon).1 = Replied r ->
  exists d m w c,
    openweather = Returned (Some d)
    /\ main d = Some m /\ wind d = Some w /\ clouds d = Some c
    /\ Weather.city r = name d
    /\ ok_humidity r = humidity m /\ ok_pressure r = pressure m
    /\ windSpeed r = speed w /\ ok_clouds r = all c
    /\ temperature r = round (temp m) /\ feelsLike r = round (feels_like m)
    /\ (forall q, temp m = Some q ->
          exists z, temperature r = Some z
                    /\ (q - (1 # 2) < inject_Z z /\ inject_Z z <= q + (1 # 2))%Q).
Proof.
  intros H.
  assert (Hr : exists d, openweather = Returned (Some d)
                         /\ (city_reply now (Some d) = Some r
                             \/ coords_reply now (Some d) = Some r)).
  { destruct H as [H|H]; [unfold by_city in H | unfold by_coords in H];
      destruct (negb _); try discriminate H;
      try (destruct (negb _); try discriminate H);
      destruct openweather as [error|[d|]]; try discriminate H;
      try (destruct (Provider.status_is _ 404); discriminate H).
    - destruct (city_reply now (Some d)) as [r'|] eqn:E; [|discriminate H].
      cbn in H. injection H as <-. eauto.
    - destruct (coords_reply now (Some d)) as [r'|] eqn:E; [|discriminate H].
      cbn in H. injection H as <-. eauto. }
  destruct Hr as (d & -> & Hd). exists d.
  unfold city_reply, coords_reply in Hd.
  destruct (sys d) as [s|], (main d) as [m|], (weather d) as [[|w0 ws]|],
           (wind d) as [w|], (clouds d) as [c|];
    try (destruct Hd as [Hd|Hd]; discriminate Hd).
  exists m, w, c.
  assert (Hfields : Weather.city r = name d
            /\ ok_humidity r = humidity m /\ ok_pressure r = pressure m
            /\ windSpeed r = speed w /\ ok_clouds r = all c
            /\ temperature r = round (temp m) /\ feelsLike r = round (feels_like m)).
  { destruct Hd as [Hd|Hd].
    - injection Hd as <-. repeat split.
    - destruct (coord d); [|discriminate Hd]. injection Hd as <-. repeat split. }
  destruct Hfields as (H1 & H2 & H3 & H4 & H5 & H6 & H7).
  repeat (split; [assumption || reflexivity|]).
  intros q Hq. rewrite H6, Hq. eexists. split; [reflexivity|].
  now apply round_close.
Qed.

Lemma weather_reply_witness :
  exists r,
    (by_city (Returned (Some Cases.panaji)) 1000 "Panaji").1 = Replied r
    /\ temperature r = Some 30%Z /\ feelsLike r = Some 33%Z.
Proof.
  eexists. split; [reflexivity|].
  destruct (weather_reply_follows_payload (Returned (Some Cases.panaji)) 1000
              "Panaji" "15.5" "73.8" _ (or_introl eq_refl))
    as (d & m & w & c & E & Hm & _ & _ & _ & _ & _ & _ & _ & Ht & Hf & _).
  injection E as <-. cbn in Hm. injection Hm as <-.
  split; [exact Ht | exact Hf].
Defined.

End WeatherFacts.
